(** * AEUtilities: audio buffer list utilities of The Amazing Audio Engine

    A shallow embedding of [TheAmazingAudioEngine/AEUtilities.c] and the
    properties of its five functions:

    - [AEAllocateAndInitAudioBufferList]
    - [AECopyAudioBufferList]
    - [AEFreeAudioBufferList]
    - [AEInitAudioBufferList]
    - [AEGetNumberOfFramesInAudioBufferList]

    The C code works on the heap ([malloc], [free], [memcpy]) and on 32-bit
    integers.  The embedding threads an explicit heap through a small
    state-and-error monad; 32-bit values are integers of [Z] with every
    conversion written out.

    Conventions of the embedding:
    - a conversion to [int] and an [int] operation that overflows keep the
      low 32 bits (two's complement);
    - [malloc] is granted or refused by an oracle carried in the heap, so
      that every pattern of allocation failure can be stated;
    - reading a field or a byte that was never written, accessing storage
      that is not live and dividing by zero are undefined; a failed
      [assert] (assertions are compiled in) ends the computation. *)

From Stdlib Require Import ZArith Lia.
From stdpp Require Import base tactics option list gmap.

Open Scope Z_scope.

(** ** Machine integers *)

(** [UInt32] values are the integers of [[0, 2^32)]; [int] values those of
    [[-2^31, 2^31)].  A conversion to either type keeps the low 32 bits. *)
Definition is_UInt32 (z : Z) : Prop := 0 <= z < 2 ^ 32.
Definition is_int (z : Z) : Prop := - 2 ^ 31 <= z < 2 ^ 31.

Definition to_UInt32 (z : Z) : Z := z mod 2 ^ 32.
Definition to_int (z : Z) : Z := (z + 2 ^ 31) mod 2 ^ 32 - 2 ^ 31.

Definition INT_MAX : Z := 2 ^ 31 - 1.

(** ** What the platform headers fix

    [AEUtilities.c] takes [AudioBuffer], [AudioBufferList],
    [AudioStreamBasicDescription] and [kAudioFormatFlagIsNonInterleaved] from
    the CoreAudio headers, and [size_t] from the C implementation.  Their
    sizes and the value of the flag are parameters of the development. *)
Class Platform := {
  size_t_bits : Z;
  sizeof_AudioBuffer : Z;
  sizeof_AudioBufferList : Z;
  kAudioFormatFlagIsNonInterleaved : Z;
  (** [size_t] is at least as wide as [UInt32] *)
  size_t_wide : 32 <= size_t_bits;
  (** [AudioBufferList] is a [UInt32] count followed by one [AudioBuffer] *)
  sizeof_AudioBuffer_pos : 0 < sizeof_AudioBuffer;
  sizeof_header : 4 <= sizeof_AudioBufferList - sizeof_AudioBuffer;
  sizeof_fits : sizeof_AudioBufferList + sizeof_AudioBuffer < 2 ^ 32
}.

(** The 64-bit Apple ABI: 8-byte pointers, so
    [sizeof(AudioBuffer) = 4 + 4 + 8] and
    [sizeof(AudioBufferList) = 4 + 4 (padding) + 16]. *)
Definition LP64 : Platform.
Proof.
  refine {| size_t_bits := 64; sizeof_AudioBuffer := 16;
            sizeof_AudioBufferList := 24;
            kAudioFormatFlagIsNonInterleaved := 32 |}; lia.
Defined.

(** The 32-bit ABI of the devices the engine was first written for. *)
Definition ILP32 : Platform.
Proof.
  refine {| size_t_bits := 32; sizeof_AudioBuffer := 12;
            sizeof_AudioBufferList := 16;
            kAudioFormatFlagIsNonInterleaved := 32 |}; lia.
Defined.

(** ** Data model *)

Abbreviation block := Z.

Inductive pointer :=
  | NULL
  | Ptr (b : block) (ofs : Z).

Definition is_null (p : pointer) : bool :=
  match p with NULL => true | Ptr _ _ => false end.

(** A byte of storage: freshly allocated storage is indeterminate. *)
Inductive memval :=
  | Undef
  | Byte (x : Byte.byte).

(** [AudioStreamBasicDescription], restricted to the fields the file reads. *)
Record AudioStreamBasicDescription := {
  mFormatFlags : Z;
  mBytesPerFrame : Z;
  mChannelsPerFrame : Z;
  mBitsPerChannel : Z
}.

Definition valid_format (f : AudioStreamBasicDescription) : Prop :=
  is_UInt32 (mFormatFlags f) /\ is_UInt32 (mBytesPerFrame f) /\
  is_UInt32 (mChannelsPerFrame f) /\ is_UInt32 (mBitsPerChannel f).

(** One [AudioBuffer] slot as it sits in storage: a field that was never
    written is indeterminate ([None]). *)
Record AudioBuffer := {
  mNumberChannels : option Z;
  mDataByteSize : option Z;
  mData : option pointer
}.

Definition uninit_AudioBuffer : AudioBuffer :=
  {| mNumberChannels := None; mDataByteSize := None; mData := None |}.

(** An [AudioBufferList] in storage: the count field and the slots that the
    storage has room for (the C type declares [mBuffers[1]] and is allocated
    with a variable length). *)
Record AudioBufferList := {
  mNumberBuffers : option Z;
  mBuffers : list AudioBuffer
}.

Inductive object :=
  | ObjBytes (data : list memval)
  | ObjList (l : AudioBufferList)
  | ObjInt (v : option Z).

(** Calls to the allocator, in program order. *)
Inductive event :=
  | EvMalloc (size : Z) (result : pointer)
  | EvFree (p : pointer).

(** The heap: the live blocks, the next block name, the answers the
    allocator will give to the coming [malloc] calls ([true]: storage is
    granted; an exhausted list refuses), and the calls made so far. *)
Record heap := Heap {
  live : gmap block object;
  next_block : block;
  oracle : list bool;
  trace : list event
}.

Definition heap_wf (h : heap) : Prop :=
  forall b, is_Some (live h !! b) -> b < next_block h.

Definition set_live (f : gmap block object -> gmap block object) (h : heap) : heap :=
  {| live := f (live h); next_block := next_block h;
     oracle := oracle h; trace := trace h |}.

Definition log (e : event) (h : heap) : heap :=
  {| live := live h; next_block := next_block h;
     oracle := oracle h; trace := trace h ++ [e] |}.

(** ** The monad of C computations *)

Inductive outcome (A : Type) :=
  | Ret (a : A) (h : heap)
  | AssertionFailed
  | Undefined.
Arguments Ret {A} a h.
Arguments AssertionFailed {A}.
Arguments Undefined {A}.

Definition M (A : Type) : Type := heap -> outcome A.

#[global] Instance M_ret : MRet M := fun A a h => Ret a h.
#[global] Instance M_bind : MBind M := fun A B f m h =>
  match m h with
  | Ret a h' => f a h'
  | AssertionFailed => AssertionFailed
  | Undefined => Undefined
  end.

Definition undefined {A} : M A := fun _ => Undefined.

(** [assert(c)], with assertions compiled in. *)
Definition assert (c : bool) : M unit :=
  fun h => if c then Ret tt h else AssertionFailed.

Section Program.
Context {P : Platform}.

Definition to_size_t (z : Z) : Z := z mod 2 ^ size_t_bits.

(** ** Storage primitives *)

(** [offsetof(AudioBufferList, mBuffers)]: the list type ends with one
    [AudioBuffer]. *)
Definition offsetof_mBuffers : Z := sizeof_AudioBufferList - sizeof_AudioBuffer.

(** The number of [AudioBuffer] slots in storage of [size] bytes that is
    used as an [AudioBufferList]. *)
Definition slots_in (size : Z) : nat :=
  Z.to_nat ((size - offsetof_mBuffers) / sizeof_AudioBuffer).

(** Storage obtained for an [AudioBufferList]; storage too small for the
    count field gives no list to work on. *)
Definition as_AudioBufferList (size : Z) : object :=
  if size <? offsetof_mBuffers then ObjBytes (replicate (Z.to_nat size) Undef)
  else ObjList {| mNumberBuffers := None;
                  mBuffers := replicate (slots_in size) uninit_AudioBuffer |}.

Definition as_bytes (size : Z) : object :=
  ObjBytes (replicate (Z.to_nat size) Undef).

(** [malloc(size)], the fresh storage being used as [view size]. *)
Definition malloc (view : Z -> object) (size : Z) : M pointer := fun h =>
  match oracle h with
  | true :: o =>
      let b := next_block h in
      Ret (Ptr b 0)
          {| live := <[b := view size]> (live h);
             next_block := b + 1;
             oracle := o;
             trace := trace h ++ [EvMalloc size (Ptr b 0)] |}
  | _ =>
      Ret NULL
          {| live := live h;
             next_block := next_block h;
             oracle := tail (oracle h);
             trace := trace h ++ [EvMalloc size NULL] |}
  end.

(** [free(p)]: nothing happens for a null pointer; any other pointer must be
    the start of a live block. *)
Definition free (p : pointer) : M unit := fun h =>
  match p with
  | NULL => Ret tt (log (EvFree NULL) h)
  | Ptr b 0 =>
      match live h !! b with
      | Some _ => Ret tt (log (EvFree p) (set_live (delete b) h))
      | None => Undefined
      end
  | Ptr _ _ => Undefined
  end.

Definition list_at (p : pointer) (h : heap) : option (block * AudioBufferList) :=
  match p with
  | Ptr b 0 =>
      match live h !! b with
      | Some (ObjList l) => Some (b, l)
      | _ => None
      end
  | _ => None
  end.

Definition load_mNumberBuffers (p : pointer) : M Z := fun h =>
  match list_at p h with
  | Some (_, l) =>
      match mNumberBuffers l with
      | Some v => Ret v h
      | None => Undefined
      end
  | None => Undefined
  end.

Definition store_mNumberBuffers (p : pointer) (v : Z) : M unit := fun h =>
  match list_at p h with
  | Some (b, l) =>
      Ret tt (set_live <[b := ObjList {| mNumberBuffers := Some v;
                                         mBuffers := mBuffers l |}]> h)
  | None => Undefined
  end.

(** Access to [p->mBuffers[i]]: the slot must lie inside the storage. *)
Definition load_slot {A} (field : AudioBuffer -> option A)
    (p : pointer) (i : Z) : M A := fun h =>
  match list_at p h with
  | Some (_, l) =>
      if i <? 0 then Undefined else
      match mBuffers l !! Z.to_nat i with
      | Some s =>
          match field s with
          | Some v => Ret v h
          | None => Undefined
          end
      | None => Undefined
      end
  | None => Undefined
  end.

Definition store_slot (upd : AudioBuffer -> AudioBuffer)
    (p : pointer) (i : Z) : M unit := fun h =>
  match list_at p h with
  | Some (b, l) =>
      if i <? 0 then Undefined else
      match mBuffers l !! Z.to_nat i with
      | Some s =>
          Ret tt (set_live <[b := ObjList {| mNumberBuffers := mNumberBuffers l;
                                             mBuffers := <[Z.to_nat i := upd s]> (mBuffers l) |}]> h)
      | None => Undefined
      end
  | None => Undefined
  end.

Definition set_mNumberChannels (v : Z) (s : AudioBuffer) : AudioBuffer :=
  {| mNumberChannels := Some v; mDataByteSize := mDataByteSize s; mData := mData s |}.
Definition set_mDataByteSize (v : Z) (s : AudioBuffer) : AudioBuffer :=
  {| mNumberChannels := mNumberChannels s; mDataByteSize := Some v; mData := mData s |}.
Definition set_mData (v : pointer) (s : AudioBuffer) : AudioBuffer :=
  {| mNumberChannels := mNumberChannels s; mDataByteSize := mDataByteSize s; mData := Some v |}.

Definition load_mNumberChannels := load_slot mNumberChannels.
Definition load_mDataByteSize := load_slot mDataByteSize.
Definition load_mData := load_slot mData.
Definition store_mNumberChannels p i v := store_slot (set_mNumberChannels v) p i.
Definition store_mDataByteSize p i v := store_slot (set_mDataByteSize v) p i.
Definition store_mData p i v := store_slot (set_mData v) p i.

(** [*p = v] for an [int *p]. *)
Definition store_int (p : pointer) (v : Z) : M unit := fun h =>
  match p with
  | Ptr b 0 =>
      match live h !! b with
      | Some (ObjInt _) => Ret tt (set_live <[b := ObjInt (Some v)]> h)
      | _ => Undefined
      end
  | _ => Undefined
  end.

(** The [n] bytes at [p], when they lie inside a live block of bytes. *)
Definition bytes_at (p : pointer) (n : Z) (h : heap) : option (list memval) :=
  match p with
  | Ptr b ofs =>
      match live h !! b with
      | Some (ObjBytes d) =>
          if (0 <=? ofs) && (0 <=? n) && (ofs + n <=? Z.of_nat (length d))
          then Some (take (Z.to_nat n) (drop (Z.to_nat ofs) d))
          else None
      | _ => None
      end
  | NULL => None
  end.

(** [memcpy(dst, src, n)].  With [n = 0] no byte is touched, whatever the
    pointers; otherwise both regions must be live and in different blocks. *)
Definition memcpy (dst src : pointer) (n : Z) : M unit := fun h =>
  if n =? 0 then Ret tt h else
  match bytes_at src n h, bytes_at dst n h, dst, src with
  | Some s, Some _, Ptr bd od, Ptr bs _ =>
      if decide (bd = bs) then Undefined else
      match live h !! bd with
      | Some (ObjBytes d) =>
          Ret tt (set_live <[bd := ObjBytes (take (Z.to_nat od) d ++ s
                                              ++ drop (Z.to_nat (od + n)) d)]> h)
      | _ => Undefined
      end
  | _, _, _, _ => Undefined
  end.

(** [(char * )p + k] *)
Definition ptr_add (p : pointer) (k : Z) : M pointer :=
  match p with
  | Ptr b ofs => mret (Ptr b (ofs + k))
  | NULL => if k =? 0 then mret NULL else undefined
  end.

(** Unsigned division; dividing by zero has no defined result. *)
Definition udiv (a b : Z) : M Z :=
  if b =? 0 then undefined else mret (a / b).

(** ** The functions of AEUtilities.c *)

(** [audioFormat->mFormatFlags & kAudioFormatFlagIsNonInterleaved], as a
    condition. *)
Definition nonInterleaved (audioFormat : AudioStreamBasicDescription) : bool :=
  negb (Z.land (mFormatFlags audioFormat) kAudioFormatFlagIsNonInterleaved =? 0).

(** The three locals of [AEAllocateAndInitAudioBufferList].  The conditional
    expressions have type [UInt32] and are converted to [int]; the product is
    an unsigned 32-bit product converted to [int]. *)
Definition numberOfBuffers (audioFormat : AudioStreamBasicDescription) : Z :=
  to_int (if nonInterleaved audioFormat then mChannelsPerFrame audioFormat else 1).

Definition channelsPerBuffer (audioFormat : AudioStreamBasicDescription) : Z :=
  to_int (if nonInterleaved audioFormat then 1 else mChannelsPerFrame audioFormat).

Definition bytesPerBuffer (audioFormat : AudioStreamBasicDescription)
    (frameCount : Z) : Z :=
  to_int (to_UInt32 (mBytesPerFrame audioFormat * frameCount)).

(** [for ( int j=0; j<i; j++ ) free(audio->mBuffers[j].mData);] with [n]
    iterations to go. *)
Fixpoint free_buffers_upto (n : nat) (j : Z) (audio : pointer) : M unit :=
  match n with
  | O => mret tt
  | S n' =>
      p ← load_mData audio j;
      free p;;
      free_buffers_upto n' (to_int (j + 1)) audio
  end.

(** The loop of [AEAllocateAndInitAudioBufferList], with [n] iterations to
    go. *)
Fixpoint allocate_buffers (n : nat) (i : Z) (audio : pointer)
    (bytesPerBuffer channelsPerBuffer : Z) : M pointer :=
  match n with
  | O => mret audio
  | S n' =>
      let rest :=
        store_mDataByteSize audio i (to_UInt32 bytesPerBuffer);;
        store_mNumberChannels audio i (to_UInt32 channelsPerBuffer);;
        allocate_buffers n' (to_int (i + 1)) audio bytesPerBuffer channelsPerBuffer in
      if 0 <? bytesPerBuffer then
        p ← malloc as_bytes (to_size_t bytesPerBuffer);
        store_mData audio i p;;
        q ← load_mData audio i;
        if is_null q then
          free_buffers_upto (Z.to_nat i) 0 audio;;
          free audio;;
          mret NULL
        else rest
      else
        store_mData audio i NULL;;
        rest
  end.

Definition AEAllocateAndInitAudioBufferList
    (audioFormat : AudioStreamBasicDescription) (frameCount : Z) : M pointer :=
  let numberOfBuffers := numberOfBuffers audioFormat in
  let channelsPerBuffer := channelsPerBuffer audioFormat in
  let bytesPerBuffer := bytesPerBuffer audioFormat frameCount in
  audio ← malloc as_AudioBufferList
            (to_size_t (sizeof_AudioBufferList
                        + to_size_t (to_int (numberOfBuffers - 1)) * sizeof_AudioBuffer));
  if is_null audio then mret NULL else
  store_mNumberBuffers audio (to_UInt32 numberOfBuffers);;
  allocate_buffers (Z.to_nat numberOfBuffers) 0 audio bytesPerBuffer channelsPerBuffer.

(** The loop of [AECopyAudioBufferList].  Its bound
    [original->mNumberBuffers] is compared as [UInt32]; the body stores only
    into [audio] and the storage it allocates, so the bound is the same on
    every test and [n] counts the iterations to go. *)
Fixpoint copy_buffers (n : nat) (i : Z) (audio original : pointer) : M pointer :=
  match n with
  | O => mret audio
  | S n' =>
      size ← load_mDataByteSize original i;
      p ← malloc as_bytes (to_size_t size);
      store_mData audio i p;;
      q ← load_mData audio i;
      if is_null q then
        free_buffers_upto (Z.to_nat i) 0 audio;;
        free audio;;
        mret NULL
      else
        size ← load_mDataByteSize original i;
        store_mDataByteSize audio i size;;
        channels ← load_mNumberChannels original i;
        store_mNumberChannels audio i channels;;
        dst ← load_mData audio i;
        src ← load_mData original i;
        size ← load_mDataByteSize original i;
        memcpy dst src size;;
        copy_buffers n' (to_int (i + 1)) audio original
  end.

Definition AECopyAudioBufferList (original : pointer) : M pointer :=
  count ← load_mNumberBuffers original;
  audio ← malloc as_AudioBufferList
            (to_size_t (sizeof_AudioBufferList
                        + to_size_t (to_UInt32 (count - 1)) * sizeof_AudioBuffer));
  if is_null audio then mret NULL else
  count ← load_mNumberBuffers original;
  store_mNumberBuffers audio count;;
  count ← load_mNumberBuffers original;
  copy_buffers (Z.to_nat count) 0 audio original.

(** The loop of [AEFreeAudioBufferList], with [n] iterations to go.  The bound
    [bufferList->mNumberBuffers] is read before the loop: a buffer whose
    storage is the list itself would change it, and then the next access to
    the list is undefined here as it is in C. *)
Fixpoint free_buffers (n : nat) (i : Z) (bufferList : pointer) : M unit :=
  match n with
  | O => mret tt
  | S n' =>
      p ← load_mData bufferList i;
      (if is_null p then mret tt
       else q ← load_mData bufferList i; free q);;
      free_buffers n' (to_int (i + 1)) bufferList
  end.

Definition AEFreeAudioBufferList (bufferList : pointer) : M unit :=
  count ← load_mNumberBuffers bufferList;
  free_buffers (Z.to_nat count) 0 bufferList;;
  free bufferList.

(** The loop of [AEInitAudioBufferList], with [n] iterations to go: every
    iteration stores into [list->mBuffers[0]], and none into the count
    field, which gives the bound. *)
Fixpoint init_buffers (n : nat) (i : Z) (list : pointer)
    (audioFormat : AudioStreamBasicDescription) (data : pointer)
    (dataSize : Z) : M unit :=
  match n with
  | O => mret tt
  | S n' =>
      store_mNumberChannels list 0
        (to_UInt32 (if nonInterleaved audioFormat then 1
                    else mChannelsPerFrame audioFormat));;
      count ← load_mNumberBuffers list;
      each ← udiv (to_UInt32 dataSize) count;
      p ← ptr_add data (to_UInt32 (to_UInt32 i * each));
      store_mData list 0 p;;
      count ← load_mNumberBuffers list;
      each ← udiv (to_UInt32 dataSize) count;
      store_mDataByteSize list 0 each;;
      init_buffers n' (to_int (i + 1)) list audioFormat data dataSize
  end.

Definition AEInitAudioBufferList (list : pointer) (listSize : Z)
    (audioFormat : AudioStreamBasicDescription) (data : pointer)
    (dataSize : Z) : M unit :=
  store_mNumberBuffers list
    (to_UInt32 (if nonInterleaved audioFormat then mChannelsPerFrame audioFormat
                else 1));;
  count ← load_mNumberBuffers list;
  assert ((count =? 1)
          || (to_size_t (sizeof_AudioBufferList + sizeof_AudioBuffer)
              <=? to_size_t listSize));;
  count ← load_mNumberBuffers list;
  init_buffers (Z.to_nat count) 0 list audioFormat data dataSize.

Definition AEGetNumberOfFramesInAudioBufferList (list : pointer)
    (audioFormat : AudioStreamBasicDescription)
    (oNumberOfChannels : pointer) : M Z :=
  count ← (if nonInterleaved audioFormat then load_mNumberBuffers list
           else load_mNumberChannels list 0);
  let channelCount := to_int count in
  (if is_null oNumberOfChannels then mret tt
   else store_int oNumberOfChannels channelCount);;
  size ← load_mDataByteSize list 0;
  frames ← udiv size (to_UInt32 (mBitsPerChannel audioFormat / 8
                                  * to_UInt32 channelCount));
  mret (to_int frames).

End Program.

(** * Vocabulary of the properties *)

(** ** Lists under construction

    The state of a call that builds a list from the heap [h0]: the list
    itself is the first block the call allocates, [next_block h0], and when
    the buffers get storage ([g]) buffer [j] gets the block after that plus
    [j].  [slot_of j] is the finished slot [j] and [data_of j] the finished
    storage of buffer [j]; [count] is the number of buffers and [stored]
    what the count field holds; [list_size] and [size_of j] are the sizes
    asked of the allocator. *)
Section Construction.
Variable h0 : heap.
Variable g : bool.
Variable count : Z.
Variable stored : Z.
Variable slot_of : Z -> AudioBuffer.
Variable data_of : Z -> object.
Variable list_size : Z.
Variable size_of : Z -> Z.

Definition list_block : block := next_block h0.
Definition data_block (j : Z) : block := next_block h0 + 1 + j.

(** Buffers [0 .. i-1] are finished. *)
Record built (i : Z) (h : heap) : Prop := {
  built_list : exists l,
    live h !! list_block = Some (ObjList l) /\
    mNumberBuffers l = Some stored /\
    count <= Z.of_nat (length (mBuffers l)) /\
    forall j, 0 <= j < i -> mBuffers l !! Z.to_nat j = Some (slot_of j);
  built_data : g = true -> forall j, 0 <= j < i ->
    live h !! data_block j = Some (data_of j);
  built_old : forall b, b < list_block -> live h !! b = live h0 !! b;
  built_next : next_block h = list_block + 1 + (if g then i else 0);
  built_fresh : forall b, next_block h <= b -> live h !! b = None
}.

(** The allocator calls made for buffers [0 .. i-1], all of them granted. *)
Definition mallocs (i : Z) : list event :=
  EvMalloc list_size (Ptr list_block 0) ::
  (if g then (fun j => EvMalloc (size_of j) (Ptr (data_block j) 0)) <$> seqZ 0 i
   else []).

Definition frees (i : Z) : list event :=
  ((fun j => EvFree (Ptr (data_block j) 0)) <$> seqZ 0 i)
  ++ [EvFree (Ptr list_block 0)].

Record logged (i : Z) (h : heap) : Prop := {
  logged_trace : trace h = trace h0 ++ mallocs i;
  logged_oracle :
    oracle h0 = true :: (if g then replicate (Z.to_nat i) true else []) ++ oracle h
}.

(** The call has given up at buffer [k]: everything it had allocated is
    free again. *)
Record unwound (k : Z) (h : heap) : Prop := {
  unwound_live : live h = live h0;
  unwound_trace :
    trace h = trace h0 ++ mallocs k ++ [EvMalloc (size_of k) NULL] ++ frees k;
  unwound_oracle : exists o,
    oracle h0 = true :: replicate (Z.to_nat k) true ++ o /\
    head o <> Some true /\ oracle h = tail o
}.

End Construction.

(** ** Lists built by AEAllocateAndInitAudioBufferList *)

Section AllocateVocabulary.
Context {P : Platform}.
Variable h0 : heap.
Variables bytes channels : Z.

(** Slot [j] of the list once the loop has passed it. *)
Definition allocated_slot (j : Z) : AudioBuffer :=
  {| mNumberChannels := Some (to_UInt32 channels);
     mDataByteSize := Some (to_UInt32 bytes);
     mData := Some (if 0 <? bytes then Ptr (data_block h0 j) 0 else NULL) |}.

Definition allocated_data (j : Z) : object := as_bytes (to_size_t bytes).

Definition allocated_size (j : Z) : Z := to_size_t bytes.

End AllocateVocabulary.

Section ListSizes.
Context {P : Platform}.

(** A list of [n] buffers has a size that [size_t] can hold. *)
Definition list_fits (n : Z) : Prop :=
  sizeof_AudioBufferList + (n - 1) * sizeof_AudioBuffer < 2 ^ size_t_bits.

Definition allocate_list_size (audioFormat : AudioStreamBasicDescription) : Z :=
  to_size_t (sizeof_AudioBufferList
             + to_size_t (to_int (numberOfBuffers audioFormat - 1)) * sizeof_AudioBuffer).

(** How a call of [AEAllocateAndInitAudioBufferList] on the heap [h0] ends:
    with the list refused, with the list built, or with the storage of
    buffer [k] refused and everything released. *)
Inductive allocate_result (audioFormat : AudioStreamBasicDescription)
    (frameCount : Z) (h0 : heap) (p : pointer) (h' : heap) : Prop :=
  | allocate_no_list :
      p = NULL ->
      head (oracle h0) <> Some true ->
      live h' = live h0 ->
      trace h' = trace h0 ++ [EvMalloc (allocate_list_size audioFormat) NULL] ->
      oracle h' = tail (oracle h0) ->
      allocate_result audioFormat frameCount h0 p h'
  | allocate_done :
      p = Ptr (list_block h0) 0 ->
      built h0 (0 <? bytesPerBuffer audioFormat frameCount)
            (numberOfBuffers audioFormat) (to_UInt32 (numberOfBuffers audioFormat))
            (allocated_slot h0 (bytesPerBuffer audioFormat frameCount)
                            (channelsPerBuffer audioFormat))
            (allocated_data (bytesPerBuffer audioFormat frameCount))
            (numberOfBuffers audioFormat) h' ->
      logged h0 (0 <? bytesPerBuffer audioFormat frameCount)
             (allocate_list_size audioFormat)
             (allocated_size (bytesPerBuffer audioFormat frameCount))
             (numberOfBuffers audioFormat) h' ->
      allocate_result audioFormat frameCount h0 p h'
  | allocate_unwound k :
      p = NULL ->
      0 < bytesPerBuffer audioFormat frameCount ->
      0 <= k < numberOfBuffers audioFormat ->
      unwound h0 true
              (allocate_list_size audioFormat)
              (allocated_size (bytesPerBuffer audioFormat frameCount)) k h' ->
      allocate_result audioFormat frameCount h0 p h'.

End ListSizes.

(** ** Lists read and built by AECopyAudioBufferList *)

(** The bytes [memcpy] reads from a buffer. *)
Definition source_bytes (h : heap) (s : AudioBuffer) : option (list memval) :=
  match mDataByteSize s, mData s with
  | Some n, Some p => if n =? 0 then Some [] else bytes_at p n h
  | _, _ => None
  end.

(** A list that can be read in full: [count] buffers, every field of them
    written, every byte of them readable. *)
Record readable_list (h : heap) (original : block) (lo : AudioBufferList)
    (count : Z) : Prop := {
  readable_live : live h !! original = Some (ObjList lo);
  readable_count : mNumberBuffers lo = Some count;
  readable_bound : 0 <= count <= INT_MAX;
  readable_slots : forall j, 0 <= j < count ->
    exists s channels size,
      mBuffers lo !! Z.to_nat j = Some s /\
      mNumberChannels s = Some channels /\
      mDataByteSize s = Some size /\ is_UInt32 size /\
      is_Some (mData s) /\ is_Some (source_bytes h s)
}.

Section CopyVocabulary.
Variable h0 : heap.
Variable lo : AudioBufferList.

Definition copied_slot (j : Z) : AudioBuffer :=
  match mBuffers lo !! Z.to_nat j with
  | Some s => {| mNumberChannels := mNumberChannels s;
                 mDataByteSize := mDataByteSize s;
                 mData := Some (Ptr (data_block h0 j) 0) |}
  | None => uninit_AudioBuffer
  end.

Definition copied_data (j : Z) : object :=
  ObjBytes (default [] (mBuffers lo !! Z.to_nat j ≫= source_bytes h0)).

Definition copied_size (j : Z) : Z :=
  default 0 (mBuffers lo !! Z.to_nat j ≫= mDataByteSize).
End CopyVocabulary.

Section CopySizes.
Context {P : Platform}.

Definition copy_list_size (count : Z) : Z :=
  to_size_t (sizeof_AudioBufferList
             + to_size_t (to_UInt32 (count - 1)) * sizeof_AudioBuffer).

(** How a call of [AECopyAudioBufferList] on the heap [h0] ends. *)
Inductive copy_result (h0 : heap) (lo : AudioBufferList) (count : Z)
    (p : pointer) (h' : heap) : Prop :=
  | copy_no_list :
      p = NULL ->
      head (oracle h0) <> Some true ->
      live h' = live h0 ->
      trace h' = trace h0 ++ [EvMalloc (copy_list_size count) NULL] ->
      oracle h' = tail (oracle h0) ->
      copy_result h0 lo count p h'
  | copy_done :
      p = Ptr (list_block h0) 0 ->
      built h0 true count count (copied_slot h0 lo) (copied_data h0 lo) count h' ->
      logged h0 true (copy_list_size count) (copied_size lo) count h' ->
      copy_result h0 lo count p h'
  | copy_unwound k :
      p = NULL ->
      0 <= k < count ->
      unwound h0 true (copy_list_size count) (copied_size lo) k h' ->
      copy_result h0 lo count p h'.

End CopySizes.

(** ** Lists released by AEFreeAudioBufferList *)

#[global] Instance pointer_eq_dec : EqDecision pointer.
Proof. solve_decision. Defined.

(** The buffers a list of [count] buffers holds, and the data pointers among
    them that are not null. *)
Definition buffers (l : AudioBufferList) (count : Z) : list AudioBuffer :=
  take (Z.to_nat count) (mBuffers l).

Definition data_pointers (ss : list AudioBuffer) : list pointer :=
  filter (fun p => p <> NULL) (omap mData ss).

(** A list that owns its storage: every data pointer is written, and the
    ones that are not null are the starts of live blocks, each its own. *)
Record owned_list (h : heap) (bufferList : block) (l : AudioBufferList)
    (count : Z) : Prop := {
  owned_live : live h !! bufferList = Some (ObjList l);
  owned_count : mNumberBuffers l = Some count;
  owned_bound : 0 <= count <= INT_MAX;
  owned_length : count <= Z.of_nat (length (mBuffers l));
  owned_written : Forall (fun s => is_Some (mData s)) (buffers l count);
  owned_blocks : forall p, p ∈ data_pointers (buffers l count) ->
    exists b, p = Ptr b 0 /\ b <> bufferList /\ is_Some (live h !! b);
  owned_separate : NoDup (data_pointers (buffers l count))
}.

(** ** The output of AEGetNumberOfFramesInAudioBufferList *)

(** The heap after the channel count [c] went to the output location. *)
Definition channels_written (oNumberOfChannels : pointer) (c : Z) (h : heap) : heap :=
  match oNumberOfChannels with
  | NULL => h
  | Ptr b _ => set_live <[b := ObjInt (Some c)]> h
  end.

(** An output location is a null pointer or an [int] of the caller. *)
Definition output_location (oNumberOfChannels : pointer) (h : heap) : Prop :=
  oNumberOfChannels = NULL \/
  exists b v, oNumberOfChannels = Ptr b 0 /\ live h !! b = Some (ObjInt v).

(** ** The assertion of AEInitAudioBufferList *)

(** A computation in which no assertion fails. *)
Definition no_abort {A} (m : M A) : Prop := forall h, m h <> AssertionFailed.

Section Regions.
Context {P : Platform}.

(** A region of [listSize] bytes holds a list of [count] buffers. *)
Definition region_holds (count listSize : Z) : Prop :=
  sizeof_AudioBufferList + (count - 1) * sizeof_AudioBuffer <= listSize.

End Regions.

(** ** The view made by AEInitAudioBufferList *)

Section InitVocabulary.
Context {P : Platform}.

(** The first slot after iteration [i] of the loop over [count] buffers. *)
Definition init_slot (audioFormat : AudioStreamBasicDescription)
    (data : block) (ofs dataSize count i : Z) : AudioBuffer :=
  {| mNumberChannels :=
       Some (to_UInt32 (if nonInterleaved audioFormat then 1
                        else mChannelsPerFrame audioFormat));
     mDataByteSize := Some (to_UInt32 dataSize / count);
     mData := Some (Ptr data (ofs + to_UInt32 (to_UInt32 i * (to_UInt32 dataSize / count)))) |}.

End InitVocabulary.

(** ** Inputs on which the properties are tried *)

(** 16-bit stereo, non-interleaved, in the 64-bit ABI: one channel of two
    bytes per frame in each buffer. *)
Definition stereo_noninterleaved : AudioStreamBasicDescription :=
  {| mFormatFlags := 32; mBytesPerFrame := 2;
     mChannelsPerFrame := 2; mBitsPerChannel := 16 |}.

(** An empty heap whose allocator grants [n] requests. *)
Definition fresh_heap (n : nat) : heap := Heap ∅ 1 (replicate n true) [].

(** A list of one buffer of eight bytes and one channel, and an interleaved
    format of four bits per channel. *)
Definition one_buffer_heap : heap :=
  Heap {[ 1 := ObjList {| mNumberBuffers := Some 1;
                          mBuffers := [ {| mNumberChannels := Some 1;
                                           mDataByteSize := Some 8;
                                           mData := Some (Ptr 2 0) |} ] |};
          2 := ObjBytes (replicate 8 Undef) ]} 3 [] [].

Definition four_bit_mono : AudioStreamBasicDescription :=
  {| mFormatFlags := 0; mBytesPerFrame := 1;
     mChannelsPerFrame := 1; mBitsPerChannel := 4 |}.

(** 16-bit audio of three channels, non-interleaved. *)
Definition three_channels : AudioStreamBasicDescription :=
  {| mFormatFlags := 32; mBytesPerFrame := 2;
     mChannelsPerFrame := 3; mBitsPerChannel := 16 |}.

(** 16-bit stereo, non-interleaved, with [bytesPerFrame] bytes per frame. *)
Definition stereo (bytesPerFrame : Z) : AudioStreamBasicDescription :=
  {| mFormatFlags := 32; mBytesPerFrame := bytesPerFrame;
     mChannelsPerFrame := 2; mBitsPerChannel := 16 |}.

(** 16-bit stereo, interleaved. *)
Definition stereo_interleaved : AudioStreamBasicDescription :=
  {| mFormatFlags := 0; mBytesPerFrame := 4;
     mChannelsPerFrame := 2; mBitsPerChannel := 16 |}.

(** A region with room for a list of two buffers, nothing written to it
    yet, and [n] bytes of sample data. *)
Definition region_heap (n : nat) : heap :=
  Heap {[ 1 := ObjList {| mNumberBuffers := None;
                          mBuffers := [uninit_AudioBuffer; uninit_AudioBuffer] |};
          2 := ObjBytes (replicate n Undef) ]} 3 [] [].

(** A list of two buffers: four bytes of one channel, and an empty buffer
    with a null data pointer.  The allocator answers [o]. *)
Definition two_buffer_list : AudioBufferList :=
  {| mNumberBuffers := Some 2;
     mBuffers := [ {| mNumberChannels := Some 1; mDataByteSize := Some 4;
                      mData := Some (Ptr 2 0) |};
                   {| mNumberChannels := Some 1; mDataByteSize := Some 0;
                      mData := Some NULL |} ] |}.

Definition two_buffer_heap (o : list bool) : heap :=
  Heap {[ 1 := ObjList two_buffer_list;
          2 := ObjBytes [Byte Byte.x01; Byte Byte.x02; Undef; Undef] ]} 3 o [].

(** 16-bit mono. *)
Definition mono : AudioStreamBasicDescription :=
  {| mFormatFlags := 0; mBytesPerFrame := 2;
     mChannelsPerFrame := 1; mBitsPerChannel := 16 |}.

(** A list of no buffers.  The allocator answers [o]. *)
Definition empty_list_heap (o : list bool) : heap :=
  Heap {[ 1 := ObjList {| mNumberBuffers := Some 0; mBuffers := [] |} ]} 2 o [].

(** * Properties *)

(** ** Conversions between the integer types *)

Lemma to_UInt32_small z : is_UInt32 z -> to_UInt32 z = z.
Proof. unfold is_UInt32, to_UInt32. intros Hz. apply Z.mod_small. lia. Qed.

Lemma to_int_small z : is_int z -> to_int z = z.
Proof.
  unfold is_int, to_int. intros Hz. rewrite Z.mod_small; lia.
Qed.

Lemma to_UInt32_range z : is_UInt32 (to_UInt32 z).
Proof. unfold is_UInt32, to_UInt32. apply Z.mod_pos_bound. lia. Qed.

Lemma to_int_range z : is_int (to_int z).
Proof.
  unfold is_int, to_int.
  pose proof (Z.mod_pos_bound (z + 2 ^ 31) (2 ^ 32)). lia.
Qed.

Lemma to_UInt32_to_int z : to_UInt32 (to_int z) = to_UInt32 z.
Proof.
  unfold to_UInt32, to_int. rewrite Zminus_mod_idemp_l. f_equal. lia.
Qed.


Lemma to_int_succ i : 0 <= i < INT_MAX -> to_int (i + 1) = i + 1.
Proof. unfold INT_MAX. intros Hi. apply to_int_small. unfold is_int. lia. Qed.

(** ** Running computations *)

Lemma run_bind {A B} (m : M A) (f : A -> M B) h :
  (m ≫= f) h =
  match m h with
  | Ret a h' => f a h'
  | AssertionFailed => AssertionFailed
  | Undefined => Undefined
  end.
Proof. reflexivity. Qed.

Lemma run_ret {A} (a : A) h : mret (M := M) a h = Ret a h.
Proof. reflexivity. Qed.

Lemma live_set_live f h : live (set_live f h) = f (live h).
Proof. reflexivity. Qed.

Section Primitives.
Context {P : Platform}.

Lemma to_size_t_small z : is_UInt32 z -> to_size_t z = z.
Proof.
  unfold is_UInt32, to_size_t. intros Hz. apply Z.mod_small.
  pose proof size_t_wide.
  assert (2 ^ 32 <= 2 ^ size_t_bits) by (apply Z.pow_le_mono_r; lia). lia.
Qed.

Lemma list_at_live b l h :
  live h !! b = Some (ObjList l) -> list_at (Ptr b 0) h = Some (b, l).
Proof. intros Hb. unfold list_at. by rewrite Hb. Qed.

Lemma load_mNumberBuffers_live b l v h :
  live h !! b = Some (ObjList l) -> mNumberBuffers l = Some v ->
  load_mNumberBuffers (Ptr b 0) h = Ret v h.
Proof.
  intros Hb Hv. unfold load_mNumberBuffers.
  by rewrite (list_at_live _ _ _ Hb), Hv.
Qed.

Lemma store_mNumberBuffers_live b l v h :
  live h !! b = Some (ObjList l) ->
  store_mNumberBuffers (Ptr b 0) v h =
  Ret tt (set_live <[b := ObjList {| mNumberBuffers := Some v;
                                     mBuffers := mBuffers l |}]> h).
Proof.
  intros Hb. unfold store_mNumberBuffers. by rewrite (list_at_live _ _ _ Hb).
Qed.

Lemma load_slot_live {A} (field : AudioBuffer -> option A) b l i s v h :
  live h !! b = Some (ObjList l) -> 0 <= i ->
  mBuffers l !! Z.to_nat i = Some s -> field s = Some v ->
  load_slot field (Ptr b 0) i h = Ret v h.
Proof.
  intros Hb Hi Hs Hv. unfold load_slot.
  rewrite (list_at_live _ _ _ Hb).
  destruct (Z.ltb_spec i 0); [lia|]. by rewrite Hs, Hv.
Qed.

Lemma store_slot_live upd b l i s h :
  live h !! b = Some (ObjList l) -> 0 <= i ->
  mBuffers l !! Z.to_nat i = Some s ->
  store_slot upd (Ptr b 0) i h =
  Ret tt (set_live <[b := ObjList {| mNumberBuffers := mNumberBuffers l;
                                     mBuffers := <[Z.to_nat i := upd s]> (mBuffers l) |}]> h).
Proof.
  intros Hb Hi Hs. unfold store_slot.
  rewrite (list_at_live _ _ _ Hb).
  destruct (Z.ltb_spec i 0); [lia|]. by rewrite Hs.
Qed.

Lemma load_mNumberChannels_live b l i s v h :
  live h !! b = Some (ObjList l) -> 0 <= i ->
  mBuffers l !! Z.to_nat i = Some s -> mNumberChannels s = Some v ->
  load_mNumberChannels (Ptr b 0) i h = Ret v h.
Proof. apply load_slot_live. Qed.

Lemma load_mDataByteSize_live b l i s v h :
  live h !! b = Some (ObjList l) -> 0 <= i ->
  mBuffers l !! Z.to_nat i = Some s -> mDataByteSize s = Some v ->
  load_mDataByteSize (Ptr b 0) i h = Ret v h.
Proof. apply load_slot_live. Qed.

Lemma load_mData_live b l i s v h :
  live h !! b = Some (ObjList l) -> 0 <= i ->
  mBuffers l !! Z.to_nat i = Some s -> mData s = Some v ->
  load_mData (Ptr b 0) i h = Ret v h.
Proof. apply load_slot_live. Qed.

Lemma store_mNumberChannels_live v b l i s h :
  live h !! b = Some (ObjList l) -> 0 <= i ->
  mBuffers l !! Z.to_nat i = Some s ->
  store_mNumberChannels (Ptr b 0) i v h =
  Ret tt (set_live <[b := ObjList {| mNumberBuffers := mNumberBuffers l;
                                     mBuffers := <[Z.to_nat i := set_mNumberChannels v s]> (mBuffers l) |}]> h).
Proof. apply store_slot_live. Qed.

Lemma store_mDataByteSize_live v b l i s h :
  live h !! b = Some (ObjList l) -> 0 <= i ->
  mBuffers l !! Z.to_nat i = Some s ->
  store_mDataByteSize (Ptr b 0) i v h =
  Ret tt (set_live <[b := ObjList {| mNumberBuffers := mNumberBuffers l;
                                     mBuffers := <[Z.to_nat i := set_mDataByteSize v s]> (mBuffers l) |}]> h).
Proof. apply store_slot_live. Qed.

Lemma store_mData_live v b l i s h :
  live h !! b = Some (ObjList l) -> 0 <= i ->
  mBuffers l !! Z.to_nat i = Some s ->
  store_mData (Ptr b 0) i v h =
  Ret tt (set_live <[b := ObjList {| mNumberBuffers := mNumberBuffers l;
                                     mBuffers := <[Z.to_nat i := set_mData v s]> (mBuffers l) |}]> h).
Proof. apply store_slot_live. Qed.

Lemma malloc_granted view size h o :
  oracle h = true :: o ->
  malloc view size h =
  Ret (Ptr (next_block h) 0)
      {| live := <[next_block h := view size]> (live h);
         next_block := next_block h + 1;
         oracle := o;
         trace := trace h ++ [EvMalloc size (Ptr (next_block h) 0)] |}.
Proof. intros Ho. unfold malloc. by rewrite Ho. Qed.

Lemma malloc_refused view size h :
  head (oracle h) <> Some true ->
  malloc view size h =
  Ret NULL
      {| live := live h;
         next_block := next_block h;
         oracle := tail (oracle h);
         trace := trace h ++ [EvMalloc size NULL] |}.
Proof.
  intros Ho. unfold malloc. destruct (oracle h) as [|[] o]; done.
Qed.

Lemma free_live b o h :
  live h !! b = Some o ->
  free (Ptr b 0) h = Ret tt (log (EvFree (Ptr b 0)) (set_live (delete b) h)).
Proof. intros Hb. unfold free. by rewrite Hb. Qed.

End Primitives.

(** ** Unwinding a partially built list

    Both [AEAllocateAndInitAudioBufferList] and [AECopyAudioBufferList] undo
    their work with the same two statements: the loop over the buffers
    allocated so far, then [free(audio)]. *)

Lemma free_buffers_upto_run (c a : block) l n : forall j h,
  live h !! a = Some (ObjList l) ->
  0 <= j -> j + Z.of_nat n <= INT_MAX ->
  (forall k, j <= k < j + Z.of_nat n ->
     c + k <> a /\ is_Some (live h !! (c + k)) /\
     exists s, mBuffers l !! Z.to_nat k = Some s /\ mData s = Some (Ptr (c + k) 0)) ->
  exists h',
    free_buffers_upto n j (Ptr a 0) h = Ret tt h' /\
    (forall b, live h' !! b =
               if decide (c + j <= b < c + j + Z.of_nat n) then None
               else live h !! b) /\
    next_block h' = next_block h /\ oracle h' = oracle h /\
    trace h' = trace h ++ ((fun k => EvFree (Ptr (c + k) 0)) <$> seqZ j (Z.of_nat n)).
Proof.
  induction n as [|n IH]; intros j h Ha Hj Hmax Hk.
  - exists h. repeat split; try done.
    + intros b. case_decide; [lia | done].
    + by rewrite app_nil_r.
  - destruct (Hk j) as (Hne & [o Ho] & s & Hs & Hd); [lia|].
    cbn [free_buffers_upto]. rewrite run_bind.
    rewrite (load_mData_live _ _ _ _ _ _ Ha Hj Hs Hd).
    rewrite run_bind, (free_live _ _ _ Ho).
    rewrite to_int_succ by lia.
    set (h1 := log _ _).
    destruct (IH (j + 1) h1) as (h' & Hrun & Hlive & Hnext & Horacle & Htrace).
    + subst h1. cbn. by rewrite lookup_delete_ne.
    + lia.
    + lia.
    + intros k Hk'. destruct (Hk k) as (Hne' & Hl & Hs'); [lia|].
      split; [done|]. split; [|done].
      subst h1. cbn. rewrite lookup_delete_ne by lia. done.
    + exists h'. split; [done|]. split; [|split; [done|split; [done|]]].
      * intros b. rewrite Hlive. subst h1. cbn.
        repeat case_decide; try lia; try done.
        -- assert (b = c + j) as -> by lia. apply lookup_delete_eq.
        -- apply lookup_delete_ne. lia.
      * rewrite Htrace. subst h1. cbn. rewrite <- app_assoc. f_equal.
        rewrite (seqZ_cons j (Z.of_nat (S n))) by lia. cbn.
        do 3 f_equal. lia.
Qed.

(** ** Lists under construction *)

Section ConstructionFacts.
Variable h0 : heap.
Variable g : bool.
Variable count : Z.
Variable stored : Z.
Variable slot_of : Z -> AudioBuffer.
Variable data_of : Z -> object.
Variable list_size : Z.
Variable size_of : Z -> Z.

Local Abbreviation built' := (built h0 g count stored slot_of data_of).
Local Abbreviation logged' := (logged h0 g list_size size_of).

(** Finishing buffer [i]: only the list and the storage of the buffer
    change. *)
Lemma built_extend i h h' l l' :
  built' i h ->
  0 <= i < count ->
  live h !! (list_block h0) = Some (ObjList l) ->
  live h' !! (list_block h0) = Some (ObjList l') ->
  mNumberBuffers l' = mNumberBuffers l ->
  mBuffers l' = <[Z.to_nat i := slot_of i]> (mBuffers l) ->
  (g = true -> live h' !! data_block h0 i = Some (data_of i)) ->
  (forall b, b <> (list_block h0) -> (g = true -> b <> data_block h0 i) ->
             live h' !! b = live h !! b) ->
  next_block h' = next_block h + (if g then 1 else 0) ->
  built' (i + 1) h'.
Proof.
  intros [(l1 & Hl1 & Hcount & Hlen & Hslots) Hdata Hold Hnext Hfresh]
         Hi Hl Hl' Hn Hb Hd Hframe Hnext'.
  assert (l1 = l) as -> by congruence.
  split; unfold list_block, data_block in *.
  - exists l'. split; [done|]. split; [congruence|]. split.
    + rewrite Hb, length_insert. done.
    + intros j Hj. rewrite Hb. destruct (decide (j = i)) as [->|Hne].
      * apply list_lookup_insert_eq. lia.
      * rewrite list_lookup_insert_ne by lia. apply Hslots. lia.
  - intros Hg j Hj. destruct (decide (j = i)) as [->|Hne]; [by apply Hd|].
    rewrite Hframe by lia. apply Hdata; [done | lia].
  - intros b Hlt. rewrite Hframe by lia. by apply Hold.
  - rewrite Hnext', Hnext. destruct g; lia.
  - intros b Hle. rewrite Hnext', Hnext in Hle. rewrite Hframe.
    + apply Hfresh. rewrite Hnext. destruct g; lia.
    + destruct g; lia.
    + intros ->. lia.
Qed.
(** A store into slot [i] or beyond leaves the finished buffers alone. *)
Lemma built_frame i h h' l l' x :
  built' i h -> 0 <= i ->
  live h !! (list_block h0) = Some (ObjList l) ->
  live h' !! (list_block h0) = Some (ObjList l') ->
  mNumberBuffers l' = mNumberBuffers l ->
  mBuffers l' = <[Z.to_nat i := x]> (mBuffers l) ->
  (forall b, b <> (list_block h0) -> live h' !! b = live h !! b) ->
  next_block h' = next_block h ->
  built' i h'.
Proof.
  intros [(l1 & Hl1 & Hcount & Hlen & Hslots) Hdata Hold Hnext Hfresh]
         Hi Hl Hl' Hn Hb Hframe Hnext'.
  assert (l1 = l) as -> by congruence.
  split; unfold list_block, data_block in *.
  - exists l'. split; [done|]. split; [congruence|]. split.
    + rewrite Hb, length_insert. done.
    + intros j Hj. rewrite Hb, list_lookup_insert_ne by lia. by apply Hslots.
  - intros Hg j Hj. rewrite Hframe by lia. by apply Hdata.
  - intros b Hlt. rewrite Hframe by lia. by apply Hold.
  - congruence.
  - intros b Hle. rewrite Hnext', Hnext in Hle. rewrite Hframe.
    + apply Hfresh. rewrite Hnext. done.
    + destruct g; lia.
Qed.

Lemma logged_extend i h h' :
  logged' i h -> 0 <= i ->
  trace h' = trace h ++ (if g then [EvMalloc (size_of i) (Ptr (data_block h0 i) 0)]
                         else []) ->
  oracle h = (if g then [true] else []) ++ oracle h' ->
  logged' (i + 1) h'.
Proof.
  intros [Htrace Horacle] Hi Ht Ho. split.
  - rewrite Ht, Htrace, <- app_assoc. f_equal. unfold mallocs. cbn. f_equal.
    destruct g; [|done].
    rewrite seqZ_app by lia. rewrite fmap_app. f_equal.
  - rewrite Horacle, Ho. f_equal. destruct g; [|done].
    rewrite Z2Nat.inj_add by lia. rewrite replicate_add, <- app_assoc. done.
Qed.

Hypothesis h0_wf : heap_wf h0.
Hypothesis g_data : g = true.

Lemma unwind_run i h :
  built' i h -> 0 <= i <= INT_MAX ->
  (forall j, 0 <= j < i -> mData (slot_of j) = Some (Ptr (data_block h0 j) 0)) ->
  exists h',
    (free_buffers_upto (Z.to_nat i) 0 (Ptr (list_block h0) 0);;
     free (Ptr (list_block h0) 0);; mret NULL) h = Ret NULL h' /\
    live h' = live h0 /\ oracle h' = oracle h /\
    trace h' = trace h ++ frees h0 i.
Proof.
  intros [(l & Hl & _ & _ & Hslots) Hdata Hold Hnext Hfresh] Hi slot_of_data.
  rewrite g_data in Hnext.
  destruct (free_buffers_upto_run ((list_block h0) + 1) (list_block h0) l (Z.to_nat i) 0 h)
    as (h1 & Hrun & Hlive & Hnext1 & Horacle & Htrace); try done.
  { lia. }
  { intros k Hk. split; [lia|]. split.
    - exists (data_of k). apply (Hdata g_data k). lia.
    - exists (slot_of k). split; [apply Hslots; lia | apply slot_of_data; lia]. }
  rewrite run_bind, Hrun.
  assert (live h1 !! (list_block h0) = Some (ObjList l)) as Hl1.
  { rewrite Hlive. case_decide; [lia | done]. }
  rewrite run_bind, (free_live _ _ _ Hl1). rewrite run_ret.
  eexists. split; [done|]. cbn. split; [|split; [done|]].
  - apply map_eq. intros b.
    destruct (decide (b = (list_block h0))) as [->|Hb].
    + rewrite lookup_delete_eq. symmetry. apply eq_None_not_Some.
      intros Hs. apply h0_wf in Hs. unfold list_block in Hs. lia.
    + rewrite lookup_delete_ne by done. rewrite Hlive.
      case_decide; [|].
      * symmetry. apply eq_None_not_Some.
        intros Hs. apply h0_wf in Hs. unfold list_block in *. lia.
      * destruct (decide (b < (list_block h0))); [by apply Hold|].
        rewrite Hfresh by lia. symmetry. apply eq_None_not_Some.
        intros Hs. apply h0_wf in Hs. unfold list_block in *. lia.
  - rewrite Htrace. unfold frees. rewrite <- app_assoc.
    rewrite Z2Nat.id by lia. done.
Qed.

End ConstructionFacts.

(** A store into slot [i] of the list at [Hl], followed by the facts about
    the list it leaves. *)
Ltac store_slot_step Hl Hi Hs h' Hl' Hs' :=
  rewrite run_bind;
  first [ rewrite (store_mData_live _ _ _ _ _ _ Hl Hi Hs)
        | rewrite (store_mDataByteSize_live _ _ _ _ _ _ Hl Hi Hs)
        | rewrite (store_mNumberChannels_live _ _ _ _ _ _ Hl Hi Hs) ];
  set (h' := set_live _ _);
  eassert (live h' !! _ = Some (ObjList _)) as Hl'
    by (subst h'; cbn [live set_live]; apply lookup_insert_eq);
  match type of Hl' with
  | _ = Some (ObjList ?l') =>
      eassert (mBuffers l' !! _ = Some _) as Hs'
        by (cbn [mBuffers]; apply list_lookup_insert_eq;
            rewrite ?length_insert; lia)
  end.

(** ** AEAllocateAndInitAudioBufferList *)

Section Allocate.
Context {P : Platform}.
Variable h0 : heap.
Variables bytes channels count : Z.

Variable stored list_size : Z.

Local Abbreviation built' :=
  (built h0 (0 <? bytes) count stored (allocated_slot h0 bytes channels)
         (allocated_data bytes)).
Local Abbreviation logged' := (logged h0 (0 <? bytes) list_size (allocated_size bytes)).
Local Abbreviation unwound' := (unwound h0 (0 <? bytes) list_size (allocated_size bytes)).

Hypothesis h0_wf : heap_wf h0.
Hypothesis count_max : count <= INT_MAX.

Lemma allocate_buffers_run n : forall i h,
  0 <= i -> i + Z.of_nat n = count ->
  built' i h -> logged' i h ->
  exists p h',
    allocate_buffers n i (Ptr (list_block h0) 0) bytes channels h = Ret p h' /\
    ((p = Ptr (list_block h0) 0 /\ built' count h' /\ logged' count h') \/
     (p = NULL /\ 0 < bytes /\ exists k, i <= k < count /\ unwound' k h')).
Proof.
  induction n as [|n IH]; intros i h Hi Hn Hbuilt Hlogged.
  - exists (Ptr (list_block h0) 0), h. split; [done|]. left.
    assert (i = count) as -> by lia. auto.
  - pose proof Hbuilt as [(l & Hl & Hstored & Hlen & Hslots) Hdata Hold Hnext Hfresh].
    destruct (lookup_lt_is_Some_2 (mBuffers l) (Z.to_nat i)) as [s Hs]; [lia|].
    cbn [allocate_buffers].
    destruct (Z.ltb_spec 0 bytes) as [Hpos|Hneg].
    + (* storage is requested *)
      assert (next_block h <> list_block h0) as Hne by lia.
      destruct (decide (head (oracle h) = Some true)) as [Hgr|Hrf].
      * (* granted *)
        destruct (oracle h) as [|[] o] eqn:Ho; try done. clear Hgr.
        rewrite run_bind, (malloc_granted _ _ _ _ Ho).
        set (h1 := Heap _ _ _ _).
        assert (live h1 !! list_block h0 = Some (ObjList l)) as Hl1.
        { subst h1. cbn. by rewrite lookup_insert_ne. }
        store_slot_step Hl1 Hi Hs h2 Hl2 Hs2.
        rewrite run_bind, (load_mData_live _ _ _ _ _ _ Hl2 Hi Hs2 eq_refl).
        cbn [is_null].
        store_slot_step Hl2 Hi Hs2 h3 Hl3 Hs3.
        store_slot_step Hl3 Hi Hs3 h4 Hl4 Hs4.
        rewrite to_int_succ by lia.
        destruct (IH (i + 1) h4) as (p & h' & Hrun & Hres); [lia|lia| | |].
        -- eapply (built_extend _ _ _ _ _ _ i h h4 l);
             [exact Hbuilt|lia|exact Hl|exact Hl4|done| | | |].
           ++ cbn [mBuffers]. rewrite !list_insert_insert_eq. f_equal.
              unfold allocated_slot. destruct (Z.ltb_spec 0 bytes); [|lia].
              unfold data_block, list_block in *. rewrite Hnext. done.
           ++ intros _. subst h4 h3 h2 h1. cbn [live set_live].
              unfold data_block, list_block in *.
              rewrite !lookup_insert_ne by lia.
              rewrite <- Hnext. apply lookup_insert_eq.
           ++ intros b Hb1 Hb2. subst h4 h3 h2 h1. cbn [live set_live].
              unfold data_block, list_block in *.
              rewrite !lookup_insert_ne by (try done; specialize (Hb2 eq_refl); lia).
              done.
           ++ done.
        -- eapply (logged_extend _ _ _ _ i h h4); [exact Hlogged|lia| |].
           ++ subst h4 h3 h2 h1. cbn. unfold allocated_size, data_block, list_block in *.
              rewrite Hnext. done.
           ++ subst h4 h3 h2 h1. cbn. done.
        -- exists p, h'. split; [done|].
           destruct Hres as [Hres|(-> & _ & k & Hk & Hres)]; [by left|].
           right. split; [done|]. split; [done|]. exists k. split; [lia|done].
      * (* refused *)
        rewrite run_bind, (malloc_refused _ _ _ Hrf).
        set (h1 := Heap _ _ _ _).
        assert (live h1 !! list_block h0 = Some (ObjList l)) as Hl1 by done.
        store_slot_step Hl1 Hi Hs h2 Hl2 Hs2.
        rewrite run_bind, (load_mData_live _ _ _ _ _ _ Hl2 Hi Hs2 eq_refl).
        cbn [is_null].
        assert (built h0 true count stored (allocated_slot h0 bytes channels)
                      (allocated_data bytes) i h2) as Hbuilt2.
        { eapply (built_frame _ _ _ _ _ _ i h h2 l); try done.
          intros b Hb. subst h2 h1. cbn [live set_live].
          by rewrite lookup_insert_ne. }
        assert (forall j, mData (allocated_slot h0 bytes channels j)
                          = Some (Ptr (data_block h0 j) 0))
          as Hsd.
        { intros j. unfold allocated_slot. by destruct (Z.ltb_spec 0 bytes); [|lia]. }
        destruct (unwind_run h0 true count stored (allocated_slot h0 bytes channels)
                    (allocated_data bytes)
                    h0_wf eq_refl i h2 Hbuilt2)
          as (h' & Hrun & Hlive & Horacle & Htrace); [lia|by intros|].
        exists NULL, h'. split; [done|]. right. split; [done|]. split; [done|].
        exists i. split; [lia|]. destruct Hlogged as [Ht Ho]. split.
        -- done.
        -- rewrite Htrace. subst h2 h1. cbn. rewrite Ht, <- !app_assoc. done.
        -- exists (oracle h). done.
    + (* no storage is requested *)
      assert (live h !! list_block h0 = Some (ObjList l)) as Hl1 by done.
      store_slot_step Hl1 Hi Hs h2 Hl2 Hs2.
      store_slot_step Hl2 Hi Hs2 h3 Hl3 Hs3.
      store_slot_step Hl3 Hi Hs3 h4 Hl4 Hs4.
      rewrite to_int_succ by lia.
      destruct (IH (i + 1) h4) as (p & h' & Hrun & Hres); [lia|lia| | |].
      * eapply (built_extend _ _ _ _ _ _ i h h4 l);
          [exact Hbuilt|lia|exact Hl|exact Hl4|done| |done| |].
        -- cbn [mBuffers]. rewrite !list_insert_insert_eq. f_equal.
           unfold allocated_slot. by destruct (Z.ltb_spec 0 bytes); [lia|].
        -- intros b Hb1 _. subst h4 h3 h2. cbn [live set_live].
           by rewrite !lookup_insert_ne.
        -- cbn. lia.
      * eapply (logged_extend _ _ _ _ i h h4); [exact Hlogged|lia| |].
        -- cbn. by rewrite app_nil_r.
        -- done.
      * exists p, h'. split; [done|].
        destruct Hres as [Hres|(-> & ? & k & Hk & Hres)]; [by left|lia].
Qed.
End Allocate.

(** ** The storage of a list *)
Section ListStorage.
Context {P : Platform}.

Lemma size_t_modulus : 2 ^ 32 <= 2 ^ size_t_bits.
Proof. pose proof size_t_wide. apply Z.pow_le_mono_r; lia. Qed.

Lemma to_size_t_list m :
  to_size_t (sizeof_AudioBufferList + to_size_t m * sizeof_AudioBuffer) =
  to_size_t (offsetof_mBuffers + (m + 1) * sizeof_AudioBuffer).
Proof.
  unfold to_size_t, offsetof_mBuffers.
  rewrite Zplus_mod, Zmult_mod_idemp_l, <- Zplus_mod. f_equal. lia.
Qed.

Lemma list_size_exact n m :
  0 <= n -> list_fits n -> to_size_t m = to_size_t (n - 1) ->
  to_size_t (sizeof_AudioBufferList + to_size_t m * sizeof_AudioBuffer) =
  offsetof_mBuffers + n * sizeof_AudioBuffer.
Proof.
  intros Hn Hfits Hm. rewrite Hm, to_size_t_list.
  replace (n - 1 + 1) with n by lia.
  unfold list_fits, offsetof_mBuffers in *.
  pose proof sizeof_AudioBuffer_pos. pose proof sizeof_header.
  apply Z.mod_small. nia.
Qed.

Lemma slots_in_exact n :
  0 <= n -> slots_in (offsetof_mBuffers + n * sizeof_AudioBuffer) = Z.to_nat n.
Proof.
  intros Hn. unfold slots_in. f_equal.
  replace (offsetof_mBuffers + n * sizeof_AudioBuffer - offsetof_mBuffers)
    with (n * sizeof_AudioBuffer) by lia.
  apply Z.div_mul. pose proof sizeof_AudioBuffer_pos. lia.
Qed.

Lemma as_AudioBufferList_exact n :
  0 <= n ->
  as_AudioBufferList (offsetof_mBuffers + n * sizeof_AudioBuffer) =
  ObjList {| mNumberBuffers := None;
             mBuffers := replicate (Z.to_nat n) uninit_AudioBuffer |}.
Proof.
  intros Hn. unfold as_AudioBufferList.
  pose proof sizeof_AudioBuffer_pos.
  destruct (Z.ltb_spec (offsetof_mBuffers + n * sizeof_AudioBuffer) offsetof_mBuffers);
    [nia|].
  by rewrite slots_in_exact.
Qed.

(** The size [AECopyAudioBufferList] asks for when the original has no
    buffer: [mNumberBuffers - 1] is the largest [UInt32].  The storage still
    holds the count field. *)
Lemma list_size_empty :
  offsetof_mBuffers <=
  to_size_t (sizeof_AudioBufferList + to_size_t (to_UInt32 (0 - 1)) * sizeof_AudioBuffer).
Proof.
  rewrite to_size_t_list.
  change (to_UInt32 (0 - 1) + 1) with (2 ^ 32).
  pose proof size_t_wide. pose proof sizeof_AudioBuffer_pos.
  pose proof sizeof_header. pose proof sizeof_fits.
  unfold to_size_t, offsetof_mBuffers in *.
  set (hdr := sizeof_AudioBufferList - sizeof_AudioBuffer) in *.
  replace size_t_bits with (32 + (size_t_bits - 32)) by lia.
  rewrite Z.pow_add_r by lia.
  set (m := 2 ^ (size_t_bits - 32)).
  assert (0 < m) by (apply Z.pow_pos_nonneg; lia).
  rewrite (Z.div_mod sizeof_AudioBuffer m) at 1 by lia.
  pose proof (Z.mod_pos_bound sizeof_AudioBuffer m).
  replace (hdr + 2 ^ 32 * (m * (sizeof_AudioBuffer / m) + sizeof_AudioBuffer mod m))
    with (hdr + 2 ^ 32 * (sizeof_AudioBuffer mod m) + (sizeof_AudioBuffer / m) * (2 ^ 32 * m)) by lia.
  rewrite Z_mod_plus_full. rewrite Z.mod_small; nia.
Qed.

End ListStorage.

Section AllocateRun.
Context {P : Platform}.

Lemma numberOfBuffers_max audioFormat : numberOfBuffers audioFormat <= INT_MAX.
Proof.
  unfold numberOfBuffers, INT_MAX.
  pose proof (to_int_range (if nonInterleaved audioFormat
                            then mChannelsPerFrame audioFormat else 1)) as H.
  unfold is_int in H. lia.
Qed.

Lemma allocate_run audioFormat frameCount h0 :
  heap_wf h0 ->
  0 <= numberOfBuffers audioFormat ->
  list_fits (numberOfBuffers audioFormat) ->
  exists p h',
    AEAllocateAndInitAudioBufferList audioFormat frameCount h0 = Ret p h' /\
    allocate_result audioFormat frameCount h0 p h'.
Proof.
  intros Hwf Hn Hfits. unfold AEAllocateAndInitAudioBufferList.
  pose proof (numberOfBuffers_max audioFormat) as Hmax.
  fold (allocate_list_size audioFormat).
  set (n := numberOfBuffers audioFormat) in *.
  set (bytes := bytesPerBuffer audioFormat frameCount).
  set (channels := channelsPerBuffer audioFormat).
  destruct (decide (head (oracle h0) = Some true)) as [Hgr|Hrf].
  - destruct (oracle h0) as [|[] o] eqn:Ho; try done. clear Hgr.
    rewrite run_bind, (malloc_granted _ _ _ _ Ho). cbn [is_null].
    assert (allocate_list_size audioFormat = offsetof_mBuffers + n * sizeof_AudioBuffer)
      as Hsize.
    { apply list_size_exact; [done|done|].
      f_equal. apply to_int_small. unfold is_int, INT_MAX in *. lia. }
    set (h1 := Heap _ _ _ _).
    assert (live h1 !! list_block h0 =
            Some (ObjList {| mNumberBuffers := None;
                             mBuffers := replicate (Z.to_nat n) uninit_AudioBuffer |}))
      as Hl1.
    { subst h1. cbn. rewrite lookup_insert_eq, Hsize.
      by rewrite as_AudioBufferList_exact. }
    rewrite run_bind, (store_mNumberBuffers_live _ _ _ _ Hl1).
    set (h2 := set_live _ _).
    destruct (allocate_buffers_run h0 bytes channels n (to_UInt32 n)
                (allocate_list_size audioFormat) Hwf Hmax (Z.to_nat n) 0 h2)
      as (p & h' & Hrun & Hres); [lia|lia| | |].
    + split.
      * eexists. split; [subst h2; cbn; apply lookup_insert_eq|].
        cbn. split; [done|]. split; [rewrite length_replicate; lia|]. intros; lia.
      * intros; lia.
      * intros b Hb. subst h2 h1. cbn. unfold list_block in *.
        rewrite !lookup_insert_ne by lia. done.
      * subst h2 h1. cbn. unfold list_block. destruct (0 <? bytes); lia.
      * intros b Hb. subst h2 h1. cbn in *.
        unfold list_block in *. rewrite !lookup_insert_ne by lia.
        apply eq_None_not_Some. intros Hs. apply Hwf in Hs. lia.
    + split.
      * subst h2 h1. cbn. unfold mallocs. cbn. by destruct (0 <? bytes).
      * subst h2 h1. cbn. rewrite Ho. by destruct (0 <? bytes).
    + exists p, h'. split; [done|].
      destruct Hres as [(-> & Hb & Hl)|(-> & Hpos & k & Hk & Hu)].
      * by apply allocate_done.
      * apply (allocate_unwound _ _ _ _ _ k); try done.
        subst bytes. by destruct (Z.ltb_spec 0 (bytesPerBuffer audioFormat frameCount)); [|lia].
  - rewrite run_bind, (malloc_refused _ _ _ Hrf). cbn [is_null].
    eexists _, _. split; [done|]. by apply allocate_no_list.
Qed.
End AllocateRun.

(** ** AECopyAudioBufferList *)

Section Memcpy.
Context {P : Platform}.

Lemma bytes_at_length p n h s :
  bytes_at p n h = Some s -> Z.of_nat (length s) = n.
Proof.
  unfold bytes_at. destruct p as [|b ofs]; [done|].
  destruct (live h !! b) as [[d| |]|]; try done.
  destruct (Z.leb_spec 0 ofs); [|done].
  destruct (Z.leb_spec 0 n); [|done].
  destruct (Z.leb_spec (ofs + n) (Z.of_nat (length d))); [|done].
  cbn. intros [= <-]. rewrite length_take, length_drop. lia.
Qed.

Lemma bytes_at_block p n h s :
  bytes_at p n h = Some s ->
  exists b ofs d, p = Ptr b ofs /\ live h !! b = Some (ObjBytes d).
Proof.
  unfold bytes_at. destruct p as [|b ofs]; [done|].
  destruct (live h !! b) as [[d| |]|] eqn:Hb; try done.
  intros _. by exists b, ofs, d.
Qed.

(** Copying into a whole block of fresh storage. *)
Lemma memcpy_fresh b src n s h :
  n <> 0 -> bytes_at src n h = Some s ->
  live h !! b = Some (as_bytes n) ->
  (forall b' ofs, src = Ptr b' ofs -> b' <> b) ->
  memcpy (Ptr b 0) src n h = Ret tt (set_live <[b := ObjBytes s]> h).
Proof.
  intros Hn Hs Hb Hne. unfold memcpy.
  pose proof (bytes_at_length _ _ _ _ Hs) as Hlen.
  destruct (bytes_at_block _ _ _ _ Hs) as (bs & ofs & d & -> & Hd).
  destruct (Z.eqb_spec n 0); [done|].
  rewrite Hs. unfold bytes_at at 1. rewrite Hb. unfold as_bytes.
  rewrite length_replicate.
  destruct (Z.leb_spec 0 n); [|lia]. cbn [andb Z.leb].
  destruct (Z.leb_spec (0 + n) (Z.of_nat (Z.to_nat n))); [|lia].
  cbn [andb]. destruct (decide (b = bs)) as [->|_]; [by destruct (Hne bs ofs)|].
  do 4 f_equal. 
  rewrite drop_ge by (rewrite length_replicate; lia).
  by rewrite app_nil_r.
Qed.
End Memcpy.

Section Copy.
Context {P : Platform}.
Variable h0 : heap.
Variable original : block.
Variable lo : AudioBufferList.
Variable count : Z.
Variable list_size : Z.

Local Abbreviation built' := (built h0 true count count (copied_slot h0 lo) (copied_data h0 lo)).
Local Abbreviation logged' := (logged h0 true list_size (copied_size lo)).
Local Abbreviation unwound' := (unwound h0 true list_size (copied_size lo)).

Hypothesis h0_wf : heap_wf h0.
Hypothesis source : readable_list h0 original lo count.

Lemma copy_buffers_run n : forall i h,
  0 <= i -> i + Z.of_nat n = count ->
  built' i h -> logged' i h ->
  exists p h',
    copy_buffers n i (Ptr (list_block h0) 0) (Ptr original 0) h = Ret p h' /\
    ((p = Ptr (list_block h0) 0 /\ built' count h' /\ logged' count h') \/
     (p = NULL /\ exists k, i <= k < count /\ unwound' k h')).
Proof.
  destruct source as [Hlo Hcount Hbound Hslots0].
  assert (original < list_block h0) as Horig.
  { apply h0_wf. by rewrite Hlo. }
  induction n as [|n IH]; intros i h Hi Hn Hbuilt Hlogged.
  - exists (Ptr (list_block h0) 0), h. split; [done|]. left.
    assert (i = count) as -> by lia. auto.
  - pose proof Hbuilt as [(l & Hl & Hstored & Hlen & Hslots) Hdata Hold Hnext Hfresh].
    destruct (lookup_lt_is_Some_2 (mBuffers l) (Z.to_nat i)) as [s Hs]; [lia|].
    destruct (Hslots0 i) as (so & channels & size & Hso & Hch & Hsz & Hsize & [src Hsrc] & [bytes Hbytes]);
      [lia|].
    assert (copied_slot h0 lo i =
            {| mNumberChannels := Some channels; mDataByteSize := Some size;
               mData := Some (Ptr (data_block h0 i) 0) |}) as Hslot.
    { unfold copied_slot. by rewrite Hso, Hch, Hsz. }
    assert (copied_data h0 lo i = ObjBytes bytes) as Hcdata.
    { unfold copied_data. by rewrite Hso; cbn; rewrite Hbytes. }
    assert (copied_size lo i = size) as Hcsize.
    { unfold copied_size. by rewrite Hso; cbn; rewrite Hsz. }
    assert (live h !! original = Some (ObjList lo)) as Hlo1.
    { by rewrite Hold. }
    assert (next_block h <> list_block h0) as Hne by lia.
    assert (next_block h <> original) as Hne' by lia.
    cbn [copy_buffers].
    rewrite run_bind, (load_mDataByteSize_live _ _ _ _ _ _ Hlo1 Hi Hso Hsz).
    rewrite (to_size_t_small size Hsize).
    destruct (decide (head (oracle h) = Some true)) as [Hgr|Hrf].
    + (* granted *)
      destruct (oracle h) as [|[] o] eqn:Ho; try done. clear Hgr.
      rewrite run_bind, (malloc_granted _ _ _ _ Ho).
      set (h1 := Heap _ _ _ _).
      assert (live h1 !! list_block h0 = Some (ObjList l)) as Hl1.
      { subst h1. cbn. by rewrite lookup_insert_ne. }
      store_slot_step Hl1 Hi Hs h2 Hl2 Hs2.
      rewrite run_bind, (load_mData_live _ _ _ _ _ _ Hl2 Hi Hs2 eq_refl).
      cbn [is_null].
      assert (live h2 !! original = Some (ObjList lo)) as Hlo2.
      { subst h2 h1. cbn [live set_live]. by rewrite !lookup_insert_ne by lia. }
      rewrite run_bind, (load_mDataByteSize_live _ _ _ _ _ _ Hlo2 Hi Hso Hsz).
      store_slot_step Hl2 Hi Hs2 h3 Hl3 Hs3.
      assert (live h3 !! original = Some (ObjList lo)) as Hlo3.
      { subst h3 h2 h1. cbn [live set_live]. by rewrite !lookup_insert_ne by lia. }
      rewrite run_bind, (load_mNumberChannels_live _ _ _ _ _ _ Hlo3 Hi Hso Hch).
      store_slot_step Hl3 Hi Hs3 h4 Hl4 Hs4.
      assert (live h4 !! original = Some (ObjList lo)) as Hlo4.
      { subst h4 h3 h2 h1. cbn [live set_live]. by rewrite !lookup_insert_ne by lia. }
      rewrite run_bind, (load_mData_live _ _ _ _ _ _ Hl4 Hi Hs4 eq_refl).
      rewrite run_bind, (load_mData_live _ _ _ _ _ _ Hlo4 Hi Hso Hsrc).
      rewrite run_bind, (load_mDataByteSize_live _ _ _ _ _ _ Hlo4 Hi Hso Hsz).
      rewrite run_bind.
      assert (exists h5, memcpy (Ptr (next_block h) 0) src size h4 = Ret tt h5 /\
                live h5 = <[next_block h := ObjBytes bytes]> (live h4) /\
                next_block h5 = next_block h4 /\ oracle h5 = oracle h4 /\
                trace h5 = trace h4) as (h5 & -> & Hlive5 & Hnext5 & Horacle5 & Htrace5).
      { unfold source_bytes in Hbytes. rewrite Hsz, Hsrc in Hbytes.
        destruct (Z.eqb_spec size 0) as [->|Hnz].
        - injection Hbytes as <-. exists h4. split; [done|].
          split; [|done]. symmetry. apply insert_id.
          subst h4 h3 h2 h1. cbn [live set_live].
          rewrite !lookup_insert_ne by done. by rewrite lookup_insert_eq.
        - assert (bytes_at src size h4 = Some bytes) as Hb4.
          { rewrite <- Hbytes. unfold bytes_at. destruct src as [|bs os]; [done|].
            destruct (live h0 !! bs) as [ob|] eqn:Hbs.
            + assert (bs < list_block h0) by (apply h0_wf; by rewrite Hbs).
              subst h4 h3 h2 h1. cbn [live set_live].
              rewrite !lookup_insert_ne by lia. rewrite Hold, Hbs by done. done.
            + unfold bytes_at in Hbytes. by rewrite Hbs in Hbytes. }
          eexists. split.
          { apply memcpy_fresh; [done|done| |].
            + subst h4 h3 h2 h1. cbn [live set_live].
              rewrite !lookup_insert_ne by done. by rewrite lookup_insert_eq.
            + intros b' ofs ->. unfold source_bytes, bytes_at in Hbytes.
              destruct (live h0 !! b') as [ob|] eqn:Hbs; [|done].
              assert (b' < list_block h0) by (apply h0_wf; by rewrite Hbs). lia. }
          done. }
      rewrite to_int_succ by lia.
      destruct (IH (i + 1) h5) as (p & h' & Hrun & Hres); [lia|lia| | |].
      * eapply (built_extend _ _ _ _ _ _ i h h5 l);
          [exact Hbuilt|lia|exact Hl
          |rewrite Hlive5, lookup_insert_ne by done; exact Hl4|done| | | |].
        -- cbn [mBuffers]. rewrite !list_insert_insert_eq. f_equal.
           rewrite Hslot. unfold data_block, list_block in *. rewrite Hnext. done.
        -- intros _. rewrite Hlive5, Hcdata. unfold data_block, list_block in *.
           rewrite <- Hnext. apply lookup_insert_eq.
        -- intros b Hb1 Hb2. specialize (Hb2 eq_refl).
           rewrite Hlive5. subst h4 h3 h2 h1. cbn [live set_live].
           unfold data_block, list_block in *.
           rewrite !lookup_insert_ne by (try done; lia). done.
        -- rewrite Hnext5. done.
      * eapply (logged_extend _ _ _ _ i h h5); [exact Hlogged|lia| |].
        -- rewrite Htrace5, Hcsize. subst h4 h3 h2 h1. cbn.
           unfold data_block, list_block in *. rewrite Hnext. done.
        -- rewrite Horacle5. done.
      * exists p, h'. split; [done|].
        destruct Hres as [Hres|(-> & k & Hk & Hres)]; [by left|].
        right. split; [done|]. exists k. split; [lia|done].
    + (* refused *)
      rewrite run_bind, (malloc_refused _ _ _ Hrf).
      set (h1 := Heap _ _ _ _).
      assert (live h1 !! list_block h0 = Some (ObjList l)) as Hl1 by done.
      store_slot_step Hl1 Hi Hs h2 Hl2 Hs2.
      rewrite run_bind, (load_mData_live _ _ _ _ _ _ Hl2 Hi Hs2 eq_refl).
      cbn [is_null].
      assert (built' i h2) as Hbuilt2.
      { eapply (built_frame _ _ _ _ _ _ i h h2 l); try done.
        intros b Hb. subst h2 h1. cbn [live set_live].
        by rewrite lookup_insert_ne. }
      assert (forall j, 0 <= j < i ->
                mData (copied_slot h0 lo j) = Some (Ptr (data_block h0 j) 0))
        as Hsd.
      { intros j Hj. unfold copied_slot.
        destruct (Hslots0 j) as (sj & ? & ? & -> & _); [lia|]. done. }
      destruct (unwind_run h0 true count count (copied_slot h0 lo) (copied_data h0 lo)
                  h0_wf eq_refl i h2 Hbuilt2)
        as (h' & Hrun & Hlive & Horacle & Htrace); [lia|done|].
      exists NULL, h'. split; [done|]. right. split; [done|].
      exists i. split; [lia|]. destruct Hlogged as [Ht Ho]. split.
      * done.
      * rewrite Htrace. subst h2 h1. cbn. rewrite Ht, Hcsize, <- !app_assoc. done.
      * exists (oracle h). done.
Qed.
End Copy.

Section CopyRun.
Context {P : Platform}.

Lemma copy_list_storage count :
  0 <= count <= INT_MAX -> list_fits count ->
  exists k, as_AudioBufferList (copy_list_size count) =
            ObjList {| mNumberBuffers := None;
                       mBuffers := replicate k uninit_AudioBuffer |} /\
            count <= Z.of_nat k.
Proof.
  intros Hc Hfits. unfold copy_list_size.
  destruct (decide (count = 0)) as [->|Hne].
  - pose proof list_size_empty as Hsize.
    eexists. split; [|lia]. unfold as_AudioBufferList.
    match goal with |- context [?s <? offsetof_mBuffers] =>
      destruct (Z.ltb_spec s offsetof_mBuffers); [lia|done] end.
  - exists (Z.to_nat count). split; [|lia].
    rewrite (list_size_exact count) by
      (try done; try lia; f_equal; apply to_UInt32_small;
       unfold is_UInt32, INT_MAX in *; lia).
    apply as_AudioBufferList_exact. lia.
Qed.

Lemma copy_run h0 original lo count :
  heap_wf h0 ->
  readable_list h0 original lo count ->
  list_fits count ->
  exists p h',
    AECopyAudioBufferList (Ptr original 0) h0 = Ret p h' /\
    copy_result h0 lo count p h'.
Proof.
  intros Hwf Hsrc Hfits. unfold AECopyAudioBufferList.
  pose proof Hsrc as [Hlo Hcount Hbound Hslots].
  assert (original < list_block h0) as Horig.
  { apply Hwf. by rewrite Hlo. }
  rewrite run_bind, (load_mNumberBuffers_live _ _ _ _ Hlo Hcount).
  fold (copy_list_size count).
  destruct (decide (head (oracle h0) = Some true)) as [Hgr|Hrf].
  - destruct (oracle h0) as [|[] o] eqn:Ho; try done. clear Hgr.
    rewrite run_bind, (malloc_granted _ _ _ _ Ho). cbn [is_null].
    destruct (copy_list_storage count Hbound Hfits) as (k & Hk & Hlen).
    set (h1 := Heap _ _ _ _).
    assert (live h1 !! original = Some (ObjList lo)) as Hlo1.
    { subst h1. cbn. unfold list_block in *. by rewrite lookup_insert_ne by lia. }
    rewrite run_bind, (load_mNumberBuffers_live _ _ _ _ Hlo1 Hcount).
    assert (live h1 !! list_block h0 =
            Some (ObjList {| mNumberBuffers := None;
                             mBuffers := replicate k uninit_AudioBuffer |}))
      as Hl1.
    { subst h1. cbn. by rewrite lookup_insert_eq, Hk. }
    rewrite run_bind, (store_mNumberBuffers_live _ _ _ _ Hl1).
    set (h2 := set_live _ _).
    assert (live h2 !! original = Some (ObjList lo)) as Hlo2.
    { subst h2 h1. cbn. unfold list_block in *. by rewrite !lookup_insert_ne by lia. }
    rewrite run_bind, (load_mNumberBuffers_live _ _ _ _ Hlo2 Hcount).
    destruct (copy_buffers_run h0 original lo count (copy_list_size count)
                Hwf Hsrc (Z.to_nat count) 0 h2)
      as (p & h' & Hrun & Hres); [lia|lia| | |].
    + split.
      * eexists. split; [subst h2; cbn; apply lookup_insert_eq|].
        cbn. split; [done|]. split; [rewrite length_replicate; lia|]. intros; lia.
      * intros; lia.
      * intros b Hb. subst h2 h1. cbn. unfold list_block in *.
        rewrite !lookup_insert_ne by lia. done.
      * subst h2 h1. cbn. unfold list_block. lia.
      * intros b Hb. subst h2 h1. cbn in *. unfold list_block in *.
        rewrite !lookup_insert_ne by lia.
        apply eq_None_not_Some. intros Hs. apply Hwf in Hs. lia.
    + split.
      * subst h2 h1. cbn. unfold mallocs. cbn. done.
      * subst h2 h1. cbn. rewrite Ho. done.
    + exists p, h'. split; [done|].
      destruct Hres as [(-> & Hb & Hl)|(-> & kk & Hkk & Hu)].
      * by apply copy_done.
      * by apply (copy_unwound _ _ _ _ _ kk).
  - rewrite run_bind, (malloc_refused _ _ _ Hrf). cbn [is_null].
    eexists _, _. split; [done|]. by apply copy_no_list.
Qed.
End CopyRun.

(** ** AEFreeAudioBufferList *)

Lemma free_buffers_run bufferList l : forall ss i h,
  live h !! bufferList = Some (ObjList l) ->
  0 <= i -> i + Z.of_nat (length ss) <= INT_MAX ->
  (forall k s, ss !! k = Some s -> mBuffers l !! (Z.to_nat i + k)%nat = Some s) ->
  Forall (fun s => is_Some (mData s)) ss ->
  (forall p, p ∈ data_pointers ss ->
     exists b, p = Ptr b 0 /\ b <> bufferList /\ is_Some (live h !! b)) ->
  NoDup (data_pointers ss) ->
  exists h',
    free_buffers (length ss) i (Ptr bufferList 0) h = Ret tt h' /\
    (forall b, live h' !! b =
               if decide (Ptr b 0 ∈ data_pointers ss) then None else live h !! b) /\
    next_block h' = next_block h /\ oracle h' = oracle h /\
    trace h' = trace h ++ (EvFree <$> data_pointers ss).
Proof.
  induction ss as [|s ss IH]; intros i h Hl Hi Hmax Hss Hwritten Hblocks Hsep.
  - exists h. cbn. split; [done|]. split.
    + intros b. case_decide as Hin; [|done]. by apply elem_of_nil in Hin.
    + by rewrite app_nil_r.
  - cbn [length free_buffers]. cbn [length] in Hmax.
    apply Forall_cons in Hwritten as [[p Hp] Hwritten].
    assert (mBuffers l !! Z.to_nat i = Some s) as Hs.
    { specialize (Hss 0%nat s eq_refl). by rewrite Nat.add_0_r in Hss. }
    assert (forall k s', ss !! k = Some s' ->
              mBuffers l !! (Z.to_nat (i + 1) + k)%nat = Some s') as Hss'.
    { intros k s' Hk. specialize (Hss (S k) s' Hk).
      by replace (Z.to_nat (i + 1) + k)%nat with (Z.to_nat i + S k)%nat by lia. }
    rewrite run_bind, (load_mData_live _ _ _ _ _ _ Hl Hi Hs Hp).
    rewrite to_int_succ by lia.
    unfold data_pointers in *. cbn [omap list_omap] in *. rewrite Hp in *.
    destruct p as [|b ofs]; cbn [is_null].
    + (* a null pointer is skipped *)
      rewrite filter_cons_False in * by naive_solver.
      rewrite run_bind, run_ret.
      apply (IH (i + 1) h); (done || lia).
    + rewrite filter_cons_True in * by done.
      destruct (Hblocks (Ptr b ofs)) as (b' & [= <- ->] & Hne & [o Ho]);
        [apply list_elem_of_here|].
      apply NoDup_cons in Hsep as [Hnotin Hsep].
      rewrite run_bind, run_bind, (load_mData_live _ _ _ _ _ _ Hl Hi Hs Hp).
      rewrite (free_live _ _ _ Ho).
      set (h1 := log _ _).
      destruct (IH (i + 1) h1) as (h' & Hrun & Hlive & Hnext & Horacle & Htrace);
        try done; try lia.
      * subst h1. cbn. by rewrite lookup_delete_ne.
      * intros p Hin. destruct (Hblocks p) as (b' & -> & Hne' & Hlive');
          [by apply list_elem_of_further|].
        exists b'. split; [done|]. split; [done|].
        subst h1. cbn. rewrite lookup_delete_ne; [done|].
        intros ->. done.
      * exists h'. split; [done|]. split; [|split; [done|split; [done|]]].
        -- intros b'. rewrite Hlive. subst h1. cbn.
           destruct (decide (b' = b)) as [->|Hne'].
           ++ rewrite lookup_delete_eq.
              repeat case_decide; try done.
              exfalso. match goal with H : ¬ _ |- _ => apply H end.
              apply list_elem_of_here.
           ++ rewrite lookup_delete_ne by done.
              repeat case_decide; try done; exfalso.
              ** match goal with H : ¬ _ |- _ => apply H end.
                 by apply list_elem_of_further.
              ** match goal with H : _ ∈ _ :: _ |- _ =>
                   apply elem_of_cons in H as [[=]|] end; done.
        -- rewrite Htrace. subst h1. cbn. by rewrite <- app_assoc.
Qed.

Lemma free_run h bufferList l count :
  owned_list h bufferList l count ->
  exists h',
    AEFreeAudioBufferList (Ptr bufferList 0) h = Ret tt h' /\
    (forall b, live h' !! b =
               if decide (b = bufferList \/ Ptr b 0 ∈ data_pointers (buffers l count))
               then None else live h !! b) /\
    next_block h' = next_block h /\ oracle h' = oracle h /\
    trace h' = trace h ++ (EvFree <$> data_pointers (buffers l count))
                       ++ [EvFree (Ptr bufferList 0)].
Proof.
  intros [Hl Hcount Hbound Hlen Hwritten Hblocks Hsep].
  unfold AEFreeAudioBufferList.
  rewrite run_bind, (load_mNumberBuffers_live _ _ _ _ Hl Hcount).
  assert (length (buffers l count) = Z.to_nat count) as Hlength.
  { unfold buffers. rewrite length_take. lia. }
  destruct (free_buffers_run bufferList l (buffers l count) 0 h)
    as (h1 & Hrun & Hlive & Hnext & Horacle & Htrace); try done; try lia.
  { intros k s Hk. apply lookup_take_Some in Hk as [Hk _]. done. }
  rewrite Hlength in Hrun. rewrite run_bind, Hrun.
  assert (live h1 !! bufferList = Some (ObjList l)) as Hl1.
  { rewrite Hlive. case_decide as Hin; [|done].
    destruct (Hblocks _ Hin) as (b & [= <-] & Hne & _). done. }
  rewrite (free_live _ _ _ Hl1).
  eexists. split; [done|]. cbn. split; [|split; [done|split; [done|]]].
  - intros b. destruct (decide (b = bufferList)) as [->|Hne].
    + rewrite lookup_delete_eq. by rewrite decide_True by auto.
    + rewrite lookup_delete_ne by done. rewrite Hlive.
      repeat case_decide; try done; exfalso; tauto.
  - rewrite Htrace, <- app_assoc. done.
Qed.

(** ** AEGetNumberOfFramesInAudioBufferList *)

Section Frames.
Context {P : Platform}.

Lemma frames_run bufferList l s size c audioFormat oNumberOfChannels h :
  live h !! bufferList = Some (ObjList l) ->
  mBuffers l !! 0%nat = Some s ->
  mDataByteSize s = Some size ->
  (if nonInterleaved audioFormat then mNumberBuffers l else mNumberChannels s) = Some c ->
  output_location oNumberOfChannels h ->
  AEGetNumberOfFramesInAudioBufferList (Ptr bufferList 0) audioFormat oNumberOfChannels h =
  let divisor := to_UInt32 (mBitsPerChannel audioFormat / 8 * to_UInt32 (to_int c)) in
  if divisor =? 0 then Undefined
  else Ret (to_int (size / divisor)) (channels_written oNumberOfChannels (to_int c) h).
Proof.
  intros Hl Hs Hsize Hc Hout. unfold AEGetNumberOfFramesInAudioBufferList.
  assert (0 <= 0) as H0 by lia.
  rewrite run_bind.
  assert ((if nonInterleaved audioFormat then load_mNumberBuffers (Ptr bufferList 0)
           else load_mNumberChannels (Ptr bufferList 0) 0) h = Ret c h) as ->.
  { destruct (nonInterleaved audioFormat).
    - by apply (load_mNumberBuffers_live _ l).
    - by apply (load_mNumberChannels_live _ l _ s). }
  rewrite run_bind.
  assert ((if is_null oNumberOfChannels then mret ()
           else store_int oNumberOfChannels (to_int c)) h
          = Ret tt (channels_written oNumberOfChannels (to_int c) h)) as ->.
  { destruct Hout as [->|(b & v & -> & Hb)]; [done|].
    cbn. unfold store_int. by rewrite Hb. }
  assert (live (channels_written oNumberOfChannels (to_int c) h) !! bufferList =
          Some (ObjList l)) as Hl'.
  { destruct Hout as [->|(b & v & -> & Hb)]; [done|].
    cbn. rewrite lookup_insert_ne; [done|]. intros ->. congruence. }
  rewrite run_bind, (load_mDataByteSize_live _ _ _ _ _ _ Hl' H0 Hs Hsize).
  rewrite run_bind. unfold udiv. cbn zeta.
  by destruct (_ =? 0).
Qed.

End Frames.

(** * Results *)

(** ** Facts about allocators, formats and heaps *)

Lemma heap_wf_empty next o t : heap_wf (Heap ∅ next o t).
Proof. intros b [x Hx]. cbn in Hx. by rewrite lookup_empty in Hx. Qed.

(** Checking [heap_wf] on a heap that is given in full. *)
Lemma heap_wf_check h :
  bool_decide (map_Forall (fun b _ => b < next_block h) (live h)) = true -> heap_wf h.
Proof.
  intros Hd b [x Hx].
  apply bool_decide_eq_true in Hd. exact (Hd b x Hx).
Qed.

(** An allocator that grants the first [n] requests does not refuse at
    request [k < n]. *)
Lemma granted_prefix (o rest tl : list bool) (n k : nat) :
  o = replicate n true ++ rest -> o = replicate k true ++ tl ->
  (k < n)%nat -> head tl = Some true.
Proof.
  intros -> Heq Hk.
  assert ((replicate n true ++ rest) !! k = Some true) as Hlk.
  { rewrite lookup_app_l by (rewrite length_replicate; lia).
    by apply lookup_replicate_2. }
  rewrite Heq in Hlk. rewrite lookup_app_r in Hlk by (rewrite length_replicate; lia).
  rewrite length_replicate, Nat.sub_diag in Hlk. by destruct tl.
Qed.

(** The first refusal of an allocator is at one place. *)
Lemma first_refusal (o tl tl' : list bool) (k k' : nat) :
  o = replicate k true ++ tl -> head tl <> Some true ->
  o = replicate k' true ++ tl' -> head tl' <> Some true ->
  k = k' /\ tl = tl'.
Proof.
  intros Ho Hh Ho' Hh'.
  assert (k = k') as <-.
  { destruct (Nat.lt_trichotomy k k') as [Hlt|[Heq|Hgt]]; [|done|].
    - by destruct Hh; apply (granted_prefix o tl' tl k' k).
    - by destruct Hh'; apply (granted_prefix o tl tl' k k'). }
  split; [done|]. rewrite Ho in Ho'. by apply app_inv_head in Ho'.
Qed.

Lemma omap_fmap_Some {A B C} (f : B -> option C) (g : A -> B) (k : A -> C)
    (l : list A) :
  Forall (fun x => f (g x) = Some (k x)) l -> omap f (g <$> l) = k <$> l.
Proof.
  induction 1 as [|x l Hx _ IH]; [done|].
  cbn. rewrite Hx. cbn. by f_equal.
Qed.

Lemma numberOfBuffers_valid {P : Platform} audioFormat :
  valid_format audioFormat ->
  (nonInterleaved audioFormat = true -> mChannelsPerFrame audioFormat <= INT_MAX) ->
  numberOfBuffers audioFormat =
    (if nonInterleaved audioFormat then mChannelsPerFrame audioFormat else 1) /\
  0 <= numberOfBuffers audioFormat.
Proof.
  intros (_ & _ & Hc & _) Hmax. unfold numberOfBuffers, is_UInt32, INT_MAX in *.
  destruct (nonInterleaved audioFormat).
  - rewrite to_int_small; [lia|]. unfold is_int. specialize (Hmax eq_refl). lia.
  - rewrite to_int_small; [lia|]. unfold is_int. lia.
Qed.

Lemma channelsPerBuffer_stored {P : Platform} audioFormat :
  valid_format audioFormat ->
  to_UInt32 (channelsPerBuffer audioFormat) =
    (if nonInterleaved audioFormat then 1 else mChannelsPerFrame audioFormat).
Proof.
  intros (_ & _ & Hc & _). unfold channelsPerBuffer.
  rewrite to_UInt32_to_int. apply to_UInt32_small.
  unfold is_UInt32 in *. destruct (nonInterleaved audioFormat); lia.
Qed.

Lemma bytesPerBuffer_stored {P : Platform} audioFormat frameCount :
  to_UInt32 (bytesPerBuffer audioFormat frameCount) =
  to_UInt32 (mBytesPerFrame audioFormat * frameCount).
Proof.
  unfold bytesPerBuffer. rewrite to_UInt32_to_int.
  unfold to_UInt32. apply Z.mod_mod. lia.
Qed.

(** What [built] says about the finished list, buffer by buffer. *)
Lemma built_buffers h0 g count stored slot_of data_of h :
  0 <= count ->
  built h0 g count stored slot_of data_of count h ->
  exists l,
    live h !! list_block h0 = Some (ObjList l) /\
    mNumberBuffers l = Some stored /\
    buffers l count = slot_of <$> seqZ 0 count.
Proof.
  intros Hc [(l & Hl & Hstored & Hlen & Hslots) _ _ _ _].
  exists l. split; [done|]. split; [done|].
  apply list_eq. intros k. unfold buffers.
  rewrite list_lookup_fmap, lookup_take.
  case_decide as Hk.
  - rewrite lookup_seqZ_lt by lia.
    specialize (Hslots (Z.of_nat k)). rewrite Nat2Z.id in Hslots.
    rewrite Hslots by lia. done.
  - rewrite lookup_seqZ_ge by lia. done.
Qed.

(** The list is returned when the allocator grants its storage and that of
    its buffers. *)
Lemma allocate_result_granted {P : Platform} audioFormat frameCount h p h' rest :
  0 <= numberOfBuffers audioFormat ->
  allocate_result audioFormat frameCount h p h' ->
  oracle h = replicate (S (Z.to_nat (numberOfBuffers audioFormat))) true ++ rest ->
  p = Ptr (list_block h) 0.
Proof.
  intros Hn [-> Hrf _ _ _ | -> _ _ | k -> _ Hk Hu] Ho.
  - rewrite Ho in Hrf. done.
  - done.
  - destruct Hu as [_ _ (o & Ho' & Hhead & _)]. destruct Hhead.
    apply (granted_prefix (oracle h) rest o
             (S (Z.to_nat (numberOfBuffers audioFormat))) (S (Z.to_nat k)));
      [done|done|lia].
Qed.

Lemma stereo_valid n : is_UInt32 n -> valid_format (stereo n).
Proof. unfold valid_format, is_UInt32. cbn. lia. Qed.

Lemma two_buffer_heap_wf o : heap_wf (two_buffer_heap o).
Proof. apply heap_wf_check. vm_compute. reflexivity. Qed.

Lemma two_buffer_heap_readable o :
  readable_list (two_buffer_heap o) 1 two_buffer_list 2.
Proof.
  split; [reflexivity|reflexivity|unfold INT_MAX; lia|].
  intros j Hj. assert (j = 0 \/ j = 1) as [-> | ->] by lia.
  - eexists _, _, _. repeat split; try reflexivity; try (by eexists); cbn; lia.
  - eexists _, _, _. repeat split; try reflexivity; try (by eexists); cbn; lia.
Qed.

Lemma two_buffer_heap_owned o :
  owned_list (two_buffer_heap o) 1 two_buffer_list 2.
Proof.
  split; [reflexivity|reflexivity|unfold INT_MAX; lia|cbn; lia| | |].
  - repeat constructor; by eexists.
  - intros p Hp. change (p ∈ [Ptr 2 0]) in Hp.
    apply list_elem_of_singleton in Hp as ->.
    exists 2. split; [done|]. split; [done|]. by eexists.
  - change (NoDup [Ptr 2 0]). apply NoDup_singleton.
Qed.

(** ** AEAllocateAndInitAudioBufferList *)

(** 100 frames of non-interleaved 16-bit stereo with four bytes per frame:
    two buffers of 400 bytes and one channel each, and a frame count of
    100. *)
Example allocate_stereo :
  exists h',
    AEAllocateAndInitAudioBufferList (P := LP64) (stereo 4) 100 (fresh_heap 3)
      = Ret (Ptr 1 0) h' /\
    live h' !! 1 =
      Some (ObjList {| mNumberBuffers := Some 2;
                       mBuffers := [ {| mNumberChannels := Some 1;
                                        mDataByteSize := Some 400;
                                        mData := Some (Ptr 2 0) |};
                                     {| mNumberChannels := Some 1;
                                        mDataByteSize := Some 400;
                                        mData := Some (Ptr 3 0) |} ] |}) /\
    AEGetNumberOfFramesInAudioBufferList (P := LP64) (Ptr 1 0) (stereo 4) NULL h'
      = Ret 100 h'.
Proof.
  eexists. split; [vm_compute; reflexivity|].
  split; vm_compute; reflexivity.
Qed.

(** The same frames interleaved: one buffer of 400 bytes and two channels. *)
Example allocate_stereo_interleaved :
  exists h',
    AEAllocateAndInitAudioBufferList (P := LP64) stereo_interleaved 100 (fresh_heap 2)
      = Ret (Ptr 1 0) h' /\
    live h' !! 1 =
      Some (ObjList {| mNumberBuffers := Some 1;
                       mBuffers := [ {| mNumberChannels := Some 2;
                                        mDataByteSize := Some 400;
                                        mData := Some (Ptr 2 0) |} ] |}) /\
    AEGetNumberOfFramesInAudioBufferList (P := LP64) (Ptr 1 0) stereo_interleaved NULL h'
      = Ret 100 h'.
Proof.
  eexists. split; [vm_compute; reflexivity|].
  split; vm_compute; reflexivity.
Qed.

(** The size asked for a list of two buffers, in both ABIs. *)
Example allocate_list_size_LP64 : allocate_list_size (P := LP64) (stereo 4) = 40.
Proof. vm_compute. reflexivity. Qed.

Example allocate_list_size_ILP32 : allocate_list_size (P := ILP32) (stereo 4) = 28.
Proof. vm_compute. reflexivity. Qed.

(** C1, the claim as stated, fails: for [2^30 + 1] frames of four bytes the
    product [4 * (2^30 + 1)] does not fit the 32-bit size, and the list that
    is returned has two buffers of four bytes. *)
Lemma allocate_structure_counterexample :
  valid_format (stereo 4) /\ 0 < 2 ^ 30 + 1 /\ is_int (2 ^ 30 + 1) /\
  exists h',
    AEAllocateAndInitAudioBufferList (P := LP64) (stereo 4) (2 ^ 30 + 1) (fresh_heap 3)
      = Ret (Ptr 1 0) h' /\
    live h' !! 1 =
      Some (ObjList {| mNumberBuffers := Some 2;
                       mBuffers := [ {| mNumberChannels := Some 1;
                                        mDataByteSize := Some 4;
                                        mData := Some (Ptr 2 0) |};
                                     {| mNumberChannels := Some 1;
                                        mDataByteSize := Some 4;
                                        mData := Some (Ptr 3 0) |} ] |}) /\
    4 <> mBytesPerFrame (stereo 4) * (2 ^ 30 + 1).
Proof.
  split; [apply stereo_valid; unfold is_UInt32; lia|].
  split; [lia|]. split; [unfold is_int; lia|].
  eexists. split; [vm_compute; reflexivity|].
  split; [vm_compute; reflexivity|cbn; lia].
Qed.

(** C1, as amended.  For every valid format and frame count, a call of
    [AEAllocateAndInitAudioBufferList] returns, and returns a list whenever
    the allocator grants the storage of the list and of its buffers.  The
    list it returns has the structure of the format: [N] buffers of one
    channel each for a non-interleaved format of [N] channels, one buffer of
    [N] channels for an interleaved one; every buffer has the byte size
    [mBytesPerFrame * frameCount], a 32-bit product (the exact product when
    that fits the [UInt32] field). *)
Theorem allocate_structure {P : Platform} audioFormat frameCount h :
  heap_wf h -> valid_format audioFormat -> 0 < frameCount -> is_int frameCount ->
  (nonInterleaved audioFormat = true -> mChannelsPerFrame audioFormat <= INT_MAX) ->
  list_fits (numberOfBuffers audioFormat) ->
  exists p h',
    AEAllocateAndInitAudioBufferList audioFormat frameCount h = Ret p h' /\
    (forall rest,
       oracle h = replicate (S (Z.to_nat (numberOfBuffers audioFormat))) true ++ rest ->
       p <> NULL) /\
    (p <> NULL ->
     exists b l,
       p = Ptr b 0 /\ live h' !! b = Some (ObjList l) /\
       let N := mChannelsPerFrame audioFormat in
       let size := to_UInt32 (mBytesPerFrame audioFormat * frameCount) in
       (mBytesPerFrame audioFormat * frameCount < 2 ^ 32 ->
        size = mBytesPerFrame audioFormat * frameCount) /\
       if nonInterleaved audioFormat then
         mNumberBuffers l = Some N /\
         Z.of_nat (length (buffers l N)) = N /\
         Forall (fun s => mDataByteSize s = Some size /\ mNumberChannels s = Some 1)
                (buffers l N)
       else
         mNumberBuffers l = Some 1 /\
         Z.of_nat (length (buffers l 1)) = 1 /\
         Forall (fun s => mDataByteSize s = Some size /\ mNumberChannels s = Some N)
                (buffers l 1)).
Proof.
  intros Hwf Hvalid Hpos Hint Hmax Hfits.
  destruct (numberOfBuffers_valid audioFormat Hvalid Hmax) as [Hn Hn0].
  destruct (allocate_run audioFormat frameCount h Hwf Hn0 Hfits)
    as (p & h' & Hrun & Hres).
  exists p, h'. split; [done|].
  destruct Hres as [-> Hrf _ _ _ | -> Hbuilt _ | k -> Hbytes Hk Hu].
  - split; [|done]. intros rest Ho. rewrite Ho in Hrf. done.
  - split; [done|]. intros _.
    destruct (built_buffers _ _ _ _ _ _ _ Hn0 Hbuilt) as (l & Hl & Hstored & Hbufs).
    exists (list_block h), l. split; [done|]. split; [done|]. cbn zeta.
    split.
    { intros Hlt. apply to_UInt32_small. destruct Hvalid as (_ & [? _] & _).
      unfold is_UInt32. nia. }
    assert (Forall (fun s =>
              mDataByteSize s = Some (to_UInt32 (mBytesPerFrame audioFormat * frameCount)) /\
              mNumberChannels s =
                Some (if nonInterleaved audioFormat then 1
                      else mChannelsPerFrame audioFormat))
              (buffers l (numberOfBuffers audioFormat))) as Hall.
    { rewrite Hbufs. apply Forall_fmap, Forall_forall. intros j _. cbn.
      by rewrite bytesPerBuffer_stored, channelsPerBuffer_stored. }
    assert (Z.of_nat (length (buffers l (numberOfBuffers audioFormat))) =
            numberOfBuffers audioFormat) as Hlen.
    { rewrite Hbufs, length_fmap, length_seqZ. lia. }
    rewrite to_UInt32_small in Hstored
      by (unfold is_UInt32; pose proof (numberOfBuffers_max audioFormat);
          unfold INT_MAX in *; lia).
    rewrite Hn in *. by destruct (nonInterleaved audioFormat).
  - split; [|done]. intros rest Ho.
    destruct Hu as [_ _ (o & Ho' & Hhead & _)]. exfalso. apply Hhead.
    apply (granted_prefix (oracle h) rest o
             (S (Z.to_nat (numberOfBuffers audioFormat))) (S (Z.to_nat k)));
      [done|done|lia].
Qed.

(** [allocate_structure] on 100 frames of 16-bit stereo: the list is returned. *)
Lemma allocate_structure_witness :
  exists p h',
    AEAllocateAndInitAudioBufferList (P := LP64) (stereo 4) 100 (fresh_heap 3)
      = Ret p h' /\ p <> NULL.
Proof.
  destruct (allocate_structure (P := LP64) (stereo 4) 100 (fresh_heap 3))
    as (p & h' & Hrun & Hgranted & _).
  - apply heap_wf_empty.
  - apply stereo_valid. unfold is_UInt32. lia.
  - lia.
  - unfold is_int. lia.
  - intros _. unfold INT_MAX. cbn. lia.
  - vm_compute. reflexivity.
  - exists p, h'. split; [exact Hrun|]. apply (Hgranted []). reflexivity.
Defined.



(** ** A refused allocation *)

(** C2.  When the allocator grants the list and the storage of buffers
    [0 .. k-1] and refuses the storage of buffer [k], both
    [AEAllocateAndInitAudioBufferList] and [AECopyAudioBufferList] return
    [NULL]; they have then freed the storage of buffers [0 .. k-1] and the
    list, in that order, and the live blocks of the heap are those from
    before the call. *)
Theorem failure_unwinds {P : Platform} :
  (forall audioFormat frameCount h k o,
     heap_wf h ->
     0 <= numberOfBuffers audioFormat ->
     list_fits (numberOfBuffers audioFormat) ->
     0 < bytesPerBuffer audioFormat frameCount ->
     0 <= k < numberOfBuffers audioFormat ->
     oracle h = replicate (S (Z.to_nat k)) true ++ o -> head o <> Some true ->
     exists h',
       AEAllocateAndInitAudioBufferList audioFormat frameCount h = Ret NULL h' /\
       live h' = live h /\
       oracle h' = tail o /\
       trace h' =
         trace h
         ++ mallocs h true (allocate_list_size audioFormat)
                    (allocated_size (bytesPerBuffer audioFormat frameCount)) k
         ++ [EvMalloc (to_size_t (bytesPerBuffer audioFormat frameCount)) NULL]
         ++ frees h k) /\
  (forall original lo count h k o,
     heap_wf h ->
     readable_list h original lo count ->
     list_fits count ->
     0 <= k < count ->
     oracle h = replicate (S (Z.to_nat k)) true ++ o -> head o <> Some true ->
     exists h',
       AECopyAudioBufferList (Ptr original 0) h = Ret NULL h' /\
       live h' = live h /\
       oracle h' = tail o /\
       trace h' =
         trace h
         ++ mallocs h true (copy_list_size count) (copied_size lo) k
         ++ [EvMalloc (copied_size lo k) NULL]
         ++ frees h k).
Proof.
  split.
  - intros audioFormat frameCount h k o Hwf Hn Hfits Hbytes Hk Ho Hhead.
    destruct (allocate_run audioFormat frameCount h Hwf Hn Hfits)
      as (p & h' & Hrun & Hres).
    destruct Hres as [-> Hrf _ _ _ | -> _ Hlogged | k' -> _ Hk' Hu].
    + rewrite Ho in Hrf. done.
    + destruct Hlogged as [_ Hlog].
      destruct (Z.ltb_spec 0 (bytesPerBuffer audioFormat frameCount)); [|lia].
      destruct Hhead.
      apply (granted_prefix (oracle h) (oracle h') o
               (S (Z.to_nat (numberOfBuffers audioFormat))) (S (Z.to_nat k)));
        [done|done|lia].
    + destruct Hu as [Hlive Htrace (o' & Ho' & Hhead' & Horacle)].
      destruct (first_refusal (oracle h) o o' (S (Z.to_nat k)) (S (Z.to_nat k')))
        as [Heq <-]; try done.
      assert (k' = k) as -> by lia.
      exists h'. done.
  - intros original lo count h k o Hwf Hsrc Hfits Hk Ho Hhead.
    destruct (copy_run h original lo count Hwf Hsrc Hfits)
      as (p & h' & Hrun & Hres).
    destruct Hres as [-> Hrf _ _ _ | -> _ Hlogged | k' -> Hk' Hu].
    + rewrite Ho in Hrf. done.
    + destruct Hlogged as [_ Hlog]. destruct Hhead.
      apply (granted_prefix (oracle h) (oracle h') o
               (S (Z.to_nat count)) (S (Z.to_nat k)));
        [done|done|lia].
    + destruct Hu as [Hlive Htrace (o' & Ho' & Hhead' & Horacle)].
      destruct (first_refusal (oracle h) o o' (S (Z.to_nat k)) (S (Z.to_nat k')))
        as [Heq <-]; try done.
      assert (k' = k) as -> by lia.
      exists h'. done.
Qed.

(** [failure_unwinds] with the storage of buffer 1 refused, for a list under
    allocation and for a list under copy. *)
Lemma failure_unwinds_witness :
  (exists h',
     AEAllocateAndInitAudioBufferList (P := LP64) (stereo 4) 100 (fresh_heap 2)
       = Ret NULL h' /\ live h' = live (fresh_heap 2)) /\
  (exists h',
     AECopyAudioBufferList (P := LP64) (Ptr 1 0) (two_buffer_heap [true; true])
       = Ret NULL h' /\ live h' = live (two_buffer_heap [true; true])).
Proof.
  split.
  - destruct (proj1 (failure_unwinds (P := LP64)) (stereo 4) 100 (fresh_heap 2) 1 [])
      as (h' & Hrun & Hlive & _).
    + apply heap_wf_empty.
    + vm_compute. discriminate.
    + vm_compute. reflexivity.
    + vm_compute. reflexivity.
    + vm_compute. split; [discriminate|reflexivity].
    + reflexivity.
    + discriminate.
    + exists h'. split; [exact Hrun|exact Hlive].
  - destruct (proj2 (failure_unwinds (P := LP64)) 1 two_buffer_list 2
                (two_buffer_heap [true; true]) 1 [])
      as (h' & Hrun & Hlive & _).
    + apply two_buffer_heap_wf.
    + apply two_buffer_heap_readable.
    + vm_compute. reflexivity.
    + lia.
    + reflexivity.
    + discriminate.
    + exists h'. split; [exact Hrun|exact Hlive].
Defined.

(** ** AECopyAudioBufferList *)

(** C3.  On a readable list, [AECopyAudioBufferList] returns, and returns a
    list whenever the allocator grants the storage.  The list it returns is
    a new block with the buffer count of the original; every buffer has the
    byte size and the channel count of the original buffer and its own new
    block of storage, which holds the bytes of the original buffer.  Whether
    a list is returned or not, no block that was live before the call has
    changed. *)
Theorem copy_structure {P : Platform} original lo count h :
  heap_wf h -> readable_list h original lo count -> list_fits count ->
  exists p h',
    AECopyAudioBufferList (Ptr original 0) h = Ret p h' /\
    (forall rest,
       oracle h = replicate (S (Z.to_nat count)) true ++ rest -> p <> NULL) /\
    (forall b, is_Some (live h !! b) -> live h' !! b = live h !! b) /\
    (p <> NULL ->
     exists b l,
       p = Ptr b 0 /\ live h !! b = None /\ live h' !! b = Some (ObjList l) /\
       mNumberBuffers l = Some count /\
       length (buffers l count) = length (buffers lo count) /\
       NoDup (omap mData (buffers l count)) /\
       forall j s, buffers lo count !! j = Some s ->
         exists s' d bytes,
           buffers l count !! j = Some s' /\
           mDataByteSize s' = mDataByteSize s /\
           mNumberChannels s' = mNumberChannels s /\
           mData s' = Some (Ptr d 0) /\
           live h !! d = None /\
           source_bytes h s = Some bytes /\
           live h' !! d = Some (ObjBytes bytes)).
Proof.
  intros Hwf Hsrc Hfits.
  destruct (copy_run h original lo count Hwf Hsrc Hfits) as (p & h' & Hrun & Hres).
  pose proof Hsrc as [Hlo Hcount Hbound Hslots].
  assert (forall b, next_block h <= b -> live h !! b = None) as Hfresh.
  { intros b Hb. apply eq_None_not_Some. intros Hs. apply Hwf in Hs. lia. }
  exists p, h'. split; [done|].
  destruct Hres as [-> Hrf Hlive _ _ | -> Hbuilt _ | k -> Hk Hu].
  - split; [|split; [|done]].
    + intros rest Ho. rewrite Ho in Hrf. done.
    + intros b _. by rewrite Hlive.
  - split; [done|]. split.
    { intros b Hb. apply (built_old _ _ _ _ _ _ _ _ Hbuilt). by apply Hwf. }
    intros _.
    destruct (built_buffers _ _ _ _ _ _ _ (proj1 Hbound) Hbuilt)
      as (l & Hl & Hstored & Hbufs).
    exists (list_block h), l. split; [done|].
    split; [apply Hfresh; unfold list_block; lia|].
    split; [done|]. split; [done|].
    assert (length (buffers lo count) = Z.to_nat count) as Hlen.
    { unfold buffers. rewrite length_take.
      destruct (decide (count = 0)) as [->|Hne]; [done|].
      destruct (Hslots (count - 1)) as (s & _ & _ & Hs & _); [lia|].
      apply lookup_lt_Some in Hs. lia. }
    split; [by rewrite Hbufs, length_fmap, length_seqZ|].
    split.
    { rewrite Hbufs.
      assert (omap mData (copied_slot h lo <$> seqZ 0 count) =
              (fun j => Ptr (data_block h j) 0) <$> seqZ 0 count) as ->.
      { apply omap_fmap_Some, Forall_seqZ. intros j Hj.
        destruct (Hslots j) as (s & _ & _ & Hs & _); [lia|].
        unfold copied_slot. by rewrite Hs. }
      apply NoDup_fmap_2; [|apply NoDup_seqZ].
      intros j1 j2 [= Heq]. unfold data_block in Heq. lia. }
    intros j s Hj. unfold buffers in Hj.
    apply lookup_take_Some in Hj as [Hs Hj].
    destruct (Hslots (Z.of_nat j)) as (s0 & ch & sz & Hs0 & Hch & Hsz & _ & _ & [bytes Hbytes]);
      [lia|].
    rewrite Nat2Z.id in Hs0. assert (s0 = s) as -> by congruence.
    exists (copied_slot h lo (Z.of_nat j)), (data_block h (Z.of_nat j)), bytes.
    split.
    { rewrite Hbufs, list_lookup_fmap, lookup_seqZ_lt by lia. done. }
    unfold copied_slot. rewrite Nat2Z.id, Hs. cbn.
    split; [done|]. split; [done|]. split; [done|].
    split; [apply Hfresh; unfold data_block; lia|]. split; [done|].
    rewrite (built_data _ _ _ _ _ _ _ _ Hbuilt eq_refl) by lia.
    unfold copied_data. rewrite Nat2Z.id, Hs. cbn. by rewrite Hbytes.
  - destruct Hu as [Hlive _ (o' & Ho' & Hhead' & _)].
    split; [|split; [|done]].
    + intros rest Ho. destruct Hhead'.
      apply (granted_prefix (oracle h) rest o'
               (S (Z.to_nat count)) (S (Z.to_nat k))); [done|done|lia].
    + intros b _. by rewrite Hlive.
Qed.

(** [copy_structure] on the list of two buffers: the copy is returned. *)
Lemma copy_structure_witness :
  exists p h',
    AECopyAudioBufferList (P := LP64) (Ptr 1 0) (two_buffer_heap [true; true; true])
      = Ret p h' /\ p <> NULL.
Proof.
  destruct (copy_structure (P := LP64) 1 two_buffer_list 2
              (two_buffer_heap [true; true; true]))
    as (p & h' & Hrun & Hgranted & _).
  - apply two_buffer_heap_wf.
  - apply two_buffer_heap_readable.
  - vm_compute. reflexivity.
  - exists p, h'. split; [exact Hrun|]. apply (Hgranted []). reflexivity.
Defined.

(** C10.  A buffer of the original with a null data pointer and a byte size
    of zero is copied like any other: [AECopyAudioBufferList] asks the
    allocator for storage of zero bytes.  When the allocator refuses it, the
    call returns [NULL]; in a list that is returned, the buffer has the
    pointer the allocator gave, not the null pointer of the original. *)
Theorem copy_allocates_for_null {P : Platform} original lo count h j s :
  heap_wf h -> readable_list h original lo count -> list_fits count ->
  buffers lo count !! j = Some s ->
  mData s = Some NULL -> mDataByteSize s = Some 0 ->
  exists p h',
    AECopyAudioBufferList (Ptr original 0) h = Ret p h' /\
    (forall o, oracle h = replicate (S j) true ++ o -> head o <> Some true ->
               p = NULL /\ EvMalloc 0 NULL ∈ trace h') /\
    (p <> NULL ->
     exists b l s' d,
       p = Ptr b 0 /\ live h' !! b = Some (ObjList l) /\
       buffers l count !! j = Some s' /\
       mData s' = Some (Ptr d 0) /\
       live h !! d = None /\ live h' !! d = Some (ObjBytes []) /\
       EvMalloc 0 (Ptr d 0) ∈ trace h').
Proof.
  intros Hwf Hsrc Hfits Hj Hdata Hsize.
  destruct (copy_run h original lo count Hwf Hsrc Hfits) as (p & h' & Hrun & Hres).
  pose proof Hsrc as [Hlo Hcount Hbound Hslots].
  unfold buffers in Hj. apply lookup_take_Some in Hj as [Hs Hj].
  assert (copied_size lo (Z.of_nat j) = 0) as Hzero.
  { unfold copied_size. by rewrite Nat2Z.id, Hs; cbn; rewrite Hsize. }
  exists p, h'. split; [done|].
  destruct Hres as [-> Hrf _ _ _ | -> Hbuilt Hlogged | k -> Hk Hu].
  - split; [|done]. intros o Ho. rewrite Ho in Hrf. done.
  - split.
    { intros o Ho Hhead. destruct Hlogged as [_ Hlog]. destruct Hhead.
      apply (granted_prefix (oracle h) (oracle h') o (S (Z.to_nat count)) (S j));
        [done|done|lia]. }
    intros _.
    destruct (built_buffers _ _ _ _ _ _ _ (proj1 Hbound) Hbuilt)
      as (l & Hl & _ & Hbufs).
    exists (list_block h), l, (copied_slot h lo (Z.of_nat j)), (data_block h (Z.of_nat j)).
    split; [done|]. split; [done|]. split.
    { rewrite Hbufs, list_lookup_fmap, lookup_seqZ_lt by lia. done. }
    split.
    { unfold copied_slot. by rewrite Nat2Z.id, Hs. }
    split.
    { apply eq_None_not_Some. intros Hlive. apply Hwf in Hlive.
      unfold data_block in Hlive. lia. }
    split.
    { rewrite (built_data _ _ _ _ _ _ _ _ Hbuilt eq_refl) by lia.
      unfold copied_data, source_bytes. by rewrite Nat2Z.id, Hs; cbn; rewrite Hsize, Hdata. }
    destruct Hlogged as [Htrace _]. rewrite Htrace.
    apply elem_of_app. right. unfold mallocs. apply list_elem_of_further.
    apply list_elem_of_fmap. exists (Z.of_nat j). split; [by rewrite Hzero|].
    apply elem_of_seqZ. lia.
  - split; [|done]. intros o Ho Hhead.
    destruct Hu as [_ Htrace (o' & Ho' & Hhead' & _)].
    destruct (first_refusal (oracle h) o o' (S j) (S (Z.to_nat k)))
      as [Heq _]; try done.
    assert (k = Z.of_nat j) as -> by lia. split; [done|].
    rewrite Htrace, Hzero. rewrite !elem_of_app. right. right. left.
    apply list_elem_of_here.
Qed.

(** [copy_allocates_for_null] on the empty second buffer of the list of two
    buffers. *)
Lemma copy_allocates_for_null_witness :
  exists p h',
    AECopyAudioBufferList (P := LP64) (Ptr 1 0) (two_buffer_heap [true; true; true])
      = Ret p h'.
Proof.
  destruct (copy_allocates_for_null (P := LP64) 1 two_buffer_list 2
              (two_buffer_heap [true; true; true]) 1
              {| mNumberChannels := Some 1; mDataByteSize := Some 0;
                 mData := Some NULL |})
    as (p & h' & Hrun & _).
  - apply two_buffer_heap_wf.
  - apply two_buffer_heap_readable.
  - vm_compute. reflexivity.
  - reflexivity.
  - reflexivity.
  - reflexivity.
  - exists p, h'. exact Hrun.
Defined.

(** ** AEFreeAudioBufferList *)

(** C9.  On a list that owns its storage, [AEFreeAudioBufferList] returns.
    It calls [free] on the data pointers that are not null, in the order of
    the buffers, and then on the list; a buffer with a null data pointer
    costs no call.  Afterwards those blocks, and no others, are gone. *)
Theorem free_releases h bufferList l count :
  owned_list h bufferList l count ->
  exists h',
    AEFreeAudioBufferList (Ptr bufferList 0) h = Ret tt h' /\
    trace h' = trace h ++ (EvFree <$> data_pointers (buffers l count))
                       ++ [EvFree (Ptr bufferList 0)] /\
    (forall b, live h' !! b =
               if decide (b = bufferList \/ Ptr b 0 ∈ data_pointers (buffers l count))
               then None else live h !! b) /\
    NULL ∉ data_pointers (buffers l count).
Proof.
  intros Howned.
  destruct (free_run h bufferList l count Howned)
    as (h' & Hrun & Hlive & _ & _ & Htrace).
  exists h'. split; [done|]. split; [done|]. split; [done|].
  unfold data_pointers. intros Hin. by apply list_elem_of_filter in Hin as [? _].
Qed.

(** [free_releases] on the list of two buffers: one call for the storage of
    the first buffer, none for the null pointer of the second, one for the
    list. *)
Lemma free_releases_witness :
  exists h',
    AEFreeAudioBufferList (Ptr 1 0) (two_buffer_heap []) = Ret tt h' /\
    trace h' = [EvFree (Ptr 2 0); EvFree (Ptr 1 0)].
Proof.
  destruct (free_releases (two_buffer_heap []) 1 two_buffer_list 2)
    as (h' & Hrun & Htrace & _).
  - apply two_buffer_heap_owned.
  - exists h'. split; [exact Hrun|exact Htrace].
Defined.

(** ** AEGetNumberOfFramesInAudioBufferList *)

(** C5, the claim as stated, fails: bits per channel and channel count are
    not zero, and the call divides by zero. *)
Lemma frame_count_counterexample :
  mBitsPerChannel four_bit_mono <> 0 /\
  load_mNumberChannels (Ptr 1 0) 0 one_buffer_heap = Ret 1 one_buffer_heap /\
  AEGetNumberOfFramesInAudioBufferList (P := LP64) (Ptr 1 0) four_bit_mono NULL
    one_buffer_heap = Undefined.
Proof. split; [done|]. split; vm_compute; reflexivity. Qed.

(** C5, as amended.  On a list with a first buffer, when the divisor
    [mBitsPerChannel / 8 * channelCount], a 32-bit unsigned product, is not
    zero, [AEGetNumberOfFramesInAudioBufferList] returns the byte size of
    the first buffer divided by it, converted to [int].  The channel count
    is the buffer count of the list for a non-interleaved format and the
    channel count of the first buffer otherwise; it goes to the output
    location when there is one, and nothing else in the heap changes. *)
Theorem frame_count {P : Platform} bufferList l s size c audioFormat oNumberOfChannels h :
  live h !! bufferList = Some (ObjList l) ->
  mBuffers l !! 0%nat = Some s ->
  mDataByteSize s = Some size ->
  (if nonInterleaved audioFormat then mNumberBuffers l else mNumberChannels s) = Some c ->
  is_UInt32 c ->
  output_location oNumberOfChannels h ->
  to_UInt32 (mBitsPerChannel audioFormat / 8 * c) <> 0 ->
  exists frames,
    AEGetNumberOfFramesInAudioBufferList (Ptr bufferList 0) audioFormat oNumberOfChannels h =
      Ret frames (channels_written oNumberOfChannels (to_int c) h) /\
    frames = to_int (size / to_UInt32 (mBitsPerChannel audioFormat / 8 * c)) /\
    (0 <= mBitsPerChannel audioFormat / 8 * c < 2 ^ 32 ->
     0 <= size / (mBitsPerChannel audioFormat / 8 * c) <= INT_MAX ->
     frames = size / (mBitsPerChannel audioFormat / 8 * c)).
Proof.
  intros Hl Hs Hsize Hc Hrange Hout Hdiv.
  rewrite (frames_run _ _ _ _ _ _ _ _ Hl Hs Hsize Hc Hout). cbn zeta.
  rewrite to_UInt32_to_int, (to_UInt32_small c Hrange).
  destruct (Z.eqb_spec (to_UInt32 (mBitsPerChannel audioFormat / 8 * c)) 0); [done|].
  eexists. split; [done|]. split; [done|].
  intros Hfit Hq. rewrite (to_UInt32_small _ Hfit).
  apply to_int_small. unfold is_int, INT_MAX in *. lia.
Qed.

(** [frame_count] on eight bytes of 16-bit mono: four frames. *)
Lemma frame_count_witness :
  exists frames,
    AEGetNumberOfFramesInAudioBufferList (P := LP64) (Ptr 1 0) mono NULL
      one_buffer_heap = Ret frames one_buffer_heap /\
    frames = 4.
Proof.
  destruct (frame_count (P := LP64) 1
              {| mNumberBuffers := Some 1;
                 mBuffers := [ {| mNumberChannels := Some 1;
                                  mDataByteSize := Some 8;
                                  mData := Some (Ptr 2 0) |} ] |}
              {| mNumberChannels := Some 1; mDataByteSize := Some 8;
                 mData := Some (Ptr 2 0) |}
              8 1 mono NULL one_buffer_heap)
    as (frames & Hrun & Hframes & _).
  - reflexivity.
  - reflexivity.
  - reflexivity.
  - reflexivity.
  - unfold is_UInt32. lia.
  - left. reflexivity.
  - vm_compute. discriminate.
  - exists frames. split; [exact Hrun|]. rewrite Hframes. reflexivity.
Defined.

(** The frame count of a list that [AEAllocateAndInitAudioBufferList] has
    returned, for any format: the buffer size [mBytesPerFrame * frameCount]
    divided by [mBitsPerChannel / 8 * mChannelsPerFrame], whether the
    channels are in one buffer or in a buffer each. *)
Lemma frame_count_of_allocated_run {P : Platform} audioFormat frameCount h :
  heap_wf h -> valid_format audioFormat ->
  0 <= frameCount ->
  (nonInterleaved audioFormat = true -> mChannelsPerFrame audioFormat <= INT_MAX) ->
  list_fits (numberOfBuffers audioFormat) ->
  mBytesPerFrame audioFormat * frameCount < 2 ^ 32 ->
  0 < mBitsPerChannel audioFormat / 8 * mChannelsPerFrame audioFormat < 2 ^ 32 ->
  exists p h',
    AEAllocateAndInitAudioBufferList audioFormat frameCount h = Ret p h' /\
    (forall rest,
       oracle h = replicate (S (Z.to_nat (numberOfBuffers audioFormat))) true ++ rest ->
       p <> NULL) /\
    (p <> NULL ->
     AEGetNumberOfFramesInAudioBufferList p audioFormat NULL h' =
     Ret (to_int (mBytesPerFrame audioFormat * frameCount
                  / (mBitsPerChannel audioFormat / 8 * mChannelsPerFrame audioFormat)))
         h').
Proof.
  intros Hwf Hvalid Hpos Hmax Hfits Hsize Hdiv.
  destruct (numberOfBuffers_valid audioFormat Hvalid Hmax) as [Hn Hn0].
  destruct (allocate_run audioFormat frameCount h Hwf Hn0 Hfits)
    as (p & h' & Hrun & Hres).
  exists p, h'. split; [done|]. split.
  { intros rest Ho.
    by rewrite (allocate_result_granted _ _ _ _ _ _ Hn0 Hres Ho). }
  intros Hp.
  destruct Hres as [-> _ _ _ _ | -> Hbuilt _ | k -> _ _ _]; try done.
  pose proof Hvalid as (_ & Hb & Hc & Hbits). unfold is_UInt32 in Hb, Hc, Hbits.
  assert (0 < mChannelsPerFrame audioFormat) as Hch.
  { destruct (decide (mChannelsPerFrame audioFormat = 0)) as [Hz|]; [|lia].
    rewrite Hz, Z.mul_0_r in Hdiv. lia. }
  assert (0 < numberOfBuffers audioFormat) as Hn1.
  { rewrite Hn. destruct (nonInterleaved audioFormat); lia. }
  destruct Hbuilt as [(l & Hl & Hstored & _ & Hslots) _ _ _ _].
  specialize (Hslots 0 ltac:(lia)). cbn in Hslots.
  rewrite (frames_run _ _ _ _ (mChannelsPerFrame audioFormat) _ _ _ Hl Hslots eq_refl);
    [| |by left].
  - cbn zeta. rewrite to_UInt32_to_int, (to_UInt32_small (mChannelsPerFrame _)) by done.
    rewrite (to_UInt32_small (_ * _)) by (unfold is_UInt32; lia).
    destruct (Z.eqb_spec (mBitsPerChannel audioFormat / 8
                          * mChannelsPerFrame audioFormat) 0); [lia|].
    by rewrite bytesPerBuffer_stored, to_UInt32_small by (unfold is_UInt32; nia).
  - destruct (nonInterleaved audioFormat) eqn:Hni.
    + rewrite Hstored, Hn. f_equal. apply to_UInt32_small. done.
    + cbn. f_equal. by rewrite channelsPerBuffer_stored, Hni.
Qed.

(** The interleaved path: the one buffer holds all the channels of a frame,
    the frame size is [mBitsPerChannel / 8 * mChannelsPerFrame], and the
    frame count of the allocated list is [frameCount]. *)
Lemma frame_count_of_allocated_interleaved {P : Platform} audioFormat frameCount h :
  heap_wf h -> valid_format audioFormat ->
  0 <= frameCount -> is_int frameCount ->
  nonInterleaved audioFormat = false ->
  mBytesPerFrame audioFormat =
    mBitsPerChannel audioFormat / 8 * mChannelsPerFrame audioFormat ->
  mBytesPerFrame audioFormat <> 0 ->
  mBytesPerFrame audioFormat * frameCount < 2 ^ 32 ->
  exists p h',
    AEAllocateAndInitAudioBufferList audioFormat frameCount h = Ret p h' /\
    (forall rest, oracle h = true :: true :: rest -> p <> NULL) /\
    (p <> NULL ->
     AEGetNumberOfFramesInAudioBufferList p audioFormat NULL h' = Ret frameCount h').
Proof.
  intros Hwf Hvalid Hpos Hint Hni Hframe Hnz Hsize.
  pose proof Hvalid as (_ & Hb & _). unfold is_UInt32 in Hb.
  assert (numberOfBuffers audioFormat = 1) as Hn.
  { destruct (numberOfBuffers_valid audioFormat Hvalid) as [-> _]; [|by rewrite Hni].
    by rewrite Hni. }
  destruct (frame_count_of_allocated_run audioFormat frameCount h)
    as (p & h' & Hrun & Hgranted & Hframes); try done.
  - by rewrite Hni.
  - rewrite Hn. unfold list_fits.
    pose proof sizeof_fits. pose proof sizeof_AudioBuffer_pos.
    pose proof size_t_modulus. lia.
  - lia.
  - exists p, h'. split; [done|]. split.
    + intros rest Ho. apply (Hgranted rest). by rewrite Hn.
    + intros Hp. rewrite (Hframes Hp), <- Hframe.
      rewrite Z.mul_comm, Z.div_mul by done. by rewrite to_int_small.
Qed.

(** The non-interleaved path: every buffer holds one channel, the frame size
    in a buffer is [mBitsPerChannel / 8], and the frame count of the
    allocated list is [frameCount] divided by the number of buffers. *)
Lemma frame_count_of_allocated_noninterleaved {P : Platform} audioFormat frameCount h :
  heap_wf h -> valid_format audioFormat ->
  0 <= frameCount -> is_int frameCount ->
  nonInterleaved audioFormat = true ->
  1 <= mChannelsPerFrame audioFormat <= INT_MAX ->
  list_fits (numberOfBuffers audioFormat) ->
  mBytesPerFrame audioFormat = mBitsPerChannel audioFormat / 8 ->
  mBytesPerFrame audioFormat <> 0 ->
  mBytesPerFrame audioFormat * frameCount < 2 ^ 32 ->
  mBytesPerFrame audioFormat * mChannelsPerFrame audioFormat < 2 ^ 32 ->
  exists p h',
    AEAllocateAndInitAudioBufferList audioFormat frameCount h = Ret p h' /\
    (forall rest,
       oracle h = replicate (S (Z.to_nat (mChannelsPerFrame audioFormat))) true ++ rest ->
       p <> NULL) /\
    (p <> NULL ->
     AEGetNumberOfFramesInAudioBufferList p audioFormat NULL h' =
     Ret (frameCount / mChannelsPerFrame audioFormat) h').
Proof.
  intros Hwf Hvalid Hpos Hint Hni Hch Hfits Hframe Hnz Hsize Hdiv.
  pose proof Hvalid as (_ & Hb & _). unfold is_UInt32 in Hb.
  assert (numberOfBuffers audioFormat = mChannelsPerFrame audioFormat) as Hn.
  { destruct (numberOfBuffers_valid audioFormat Hvalid) as [-> _]; [lia|].
    by rewrite Hni. }
  destruct (frame_count_of_allocated_run audioFormat frameCount h)
    as (p & h' & Hrun & Hgranted & Hframes); try done.
  - lia.
  - rewrite <- Hframe. nia.
  - exists p, h'. split; [done|]. split.
    + intros rest Ho. apply (Hgranted rest). by rewrite Hn.
    + intros Hp. rewrite (Hframes Hp), <- Hframe.
      rewrite Z.div_mul_cancel_l by lia.
      rewrite to_int_small; [done|].
      unfold is_int in *.
      pose proof (Z.div_pos frameCount (mChannelsPerFrame audioFormat)).
      pose proof (Z.div_le_upper_bound frameCount (mChannelsPerFrame audioFormat)
                    frameCount).
      nia.
Qed.

(** C6.  The list allocated for 100 frames of [stereo_noninterleaved] has two
    buffers of one channel and 200 bytes each, and the claim has 100 as its
    frame count.  [AEGetNumberOfFramesInAudioBufferList] divides the 200
    bytes of the first buffer by the two bytes of a sample times the two
    buffers of the list, an exact division, and returns 50. *)
Theorem frame_count_of_allocated_stereo :
  exists h',
    AEAllocateAndInitAudioBufferList (P := LP64) stereo_noninterleaved 100 (fresh_heap 3)
      = Ret (Ptr 1 0) h' /\
    live h' !! 1 =
      Some (ObjList {| mNumberBuffers := Some 2;
                       mBuffers := [ {| mNumberChannels := Some 1;
                                        mDataByteSize := Some 200;
                                        mData := Some (Ptr 2 0) |};
                                     {| mNumberChannels := Some 1;
                                        mDataByteSize := Some 200;
                                        mData := Some (Ptr 3 0) |} ] |}) /\
    200 mod (mBitsPerChannel stereo_noninterleaved / 8 * 2) = 0 /\
    AEGetNumberOfFramesInAudioBufferList (P := LP64) (Ptr 1 0) stereo_noninterleaved
      NULL h' = Ret 50 h'.
Proof.
  eexists. split; [vm_compute; reflexivity|].
  split; [vm_compute; reflexivity|]. split; [done|vm_compute; reflexivity].
Qed.

(** ** AEInitAudioBufferList *)

Lemma no_abort_bind {A B} (m : M A) (f : A -> M B) :
  no_abort m -> (forall a, no_abort (f a)) -> no_abort (m ≫= f).
Proof.
  intros Hm Hf h. rewrite run_bind. specialize (Hm h).
  destruct (m h) as [a h'| |]; [apply Hf|done|done].
Qed.

Lemma no_abort_ret {A} (a : A) : no_abort (mret a).
Proof. done. Qed.

Lemma no_abort_store_slot upd p i : no_abort (store_slot upd p i).
Proof.
  intros h. unfold store_slot.
  destruct (list_at p h) as [[b l]|]; [|done].
  destruct (i <? 0); [done|]. by destruct (mBuffers l !! Z.to_nat i).
Qed.

Lemma no_abort_load_mNumberBuffers p : no_abort (load_mNumberBuffers p).
Proof.
  intros h. unfold load_mNumberBuffers.
  destruct (list_at p h) as [[b l]|]; [|done]. by destruct (mNumberBuffers l).
Qed.

Lemma no_abort_udiv a b : no_abort (udiv a b).
Proof. intros h. unfold udiv. by destruct (b =? 0). Qed.

Lemma no_abort_ptr_add p k : no_abort (ptr_add p k).
Proof. intros h. unfold ptr_add. destruct p; [by destruct (k =? 0)|done]. Qed.

Lemma no_abort_init_buffers {P : Platform} n : forall i bufferList audioFormat data dataSize,
  no_abort (init_buffers n i bufferList audioFormat data dataSize).
Proof.
  induction n as [|n IH]; intros i bufferList audioFormat data dataSize.
  - apply no_abort_ret.
  - cbn [init_buffers].
    repeat first
      [ apply IH
      | apply no_abort_store_slot
      | apply no_abort_load_mNumberBuffers
      | apply no_abort_udiv
      | apply no_abort_ptr_add
      | apply no_abort_bind; [|intros ?] ].
Qed.

(** C7, the claim as stated, fails: a region of 40 bytes is too small for
    the three buffers of the format, and the call returns. *)
Lemma init_assertion_counterexample :
  1 < mChannelsPerFrame three_channels /\
  ~ region_holds (P := LP64) (mChannelsPerFrame three_channels) 40 /\
  exists h',
    AEInitAudioBufferList (P := LP64) (Ptr 1 0) 40 three_channels (Ptr 2 0) 12
      (region_heap 12) = Ret tt h'.
Proof.
  split; [done|]. split; [vm_compute; by intros H|].
  eexists. vm_compute. reflexivity.
Qed.

(** C7, as amended.  The assertion of [AEInitAudioBufferList] fails exactly
    when the buffer count of the format is not 1 and [listSize], converted
    to [size_t], is below the size of a list of two buffers.  So it does not
    fail when the count exceeds 1 and the region holds that many buffers. *)
Theorem init_assertion {P : Platform} bufferList l listSize audioFormat data dataSize h :
  live h !! bufferList = Some (ObjList l) -> valid_format audioFormat ->
  let count := if nonInterleaved audioFormat
               then mChannelsPerFrame audioFormat else 1 in
  (AEInitAudioBufferList (Ptr bufferList 0) listSize audioFormat data dataSize h
     = AssertionFailed
   <-> count <> 1 /\
       to_size_t listSize < sizeof_AudioBufferList + sizeof_AudioBuffer) /\
  (1 < count -> is_int listSize -> region_holds count listSize ->
   AEInitAudioBufferList (Ptr bufferList 0) listSize audioFormat data dataSize h
     <> AssertionFailed).
Proof.
  intros Hl Hvalid count.
  assert (is_UInt32 count) as Hcount.
  { destruct Hvalid as (_ & _ & Hc & _). subst count. unfold is_UInt32 in *.
    destruct (nonInterleaved audioFormat); lia. }
  assert (AEInitAudioBufferList (Ptr bufferList 0) listSize audioFormat data dataSize h
            = AssertionFailed
          <-> count <> 1 /\
              to_size_t listSize < sizeof_AudioBufferList + sizeof_AudioBuffer)
    as Hiff.
  { unfold AEInitAudioBufferList. fold count.
    rewrite run_bind, (store_mNumberBuffers_live _ _ _ _ Hl).
    set (h1 := set_live _ h).
    assert (live h1 !! bufferList =
            Some (ObjList {| mNumberBuffers := Some (to_UInt32 count);
                             mBuffers := mBuffers l |})) as Hl1.
    { subst h1. cbn. apply lookup_insert_eq. }
    rewrite run_bind, (load_mNumberBuffers_live _ _ _ _ Hl1 eq_refl).
    rewrite (to_UInt32_small count Hcount).
    rewrite (to_size_t_small (sizeof_AudioBufferList + sizeof_AudioBuffer)).
    2:{ pose proof sizeof_fits. pose proof sizeof_header.
        pose proof sizeof_AudioBuffer_pos. unfold is_UInt32. lia. }
    rewrite run_bind. unfold assert.
    destruct (Z.eqb_spec count 1) as [Heq|Hne]; cbn [orb].
    - split; [|lia]. intros Habort. exfalso. revert Habort.
      apply (no_abort_bind (load_mNumberBuffers _));
        [apply no_abort_load_mNumberBuffers|intros; apply no_abort_init_buffers].
    - destruct (Z.leb_spec (sizeof_AudioBufferList + sizeof_AudioBuffer)
                           (to_size_t listSize)) as [Hle|Hlt].
      + split; [|lia]. intros Habort. exfalso. revert Habort.
        apply (no_abort_bind (load_mNumberBuffers _));
          [apply no_abort_load_mNumberBuffers|intros; apply no_abort_init_buffers].
      + done. }
  split; [done|].
  intros Hmany Hint Hholds. rewrite Hiff. intros [_ Hsmall].
  unfold region_holds, is_int in *.
  pose proof sizeof_AudioBuffer_pos. pose proof sizeof_header.
  pose proof size_t_modulus.
  unfold to_size_t in Hsmall. rewrite Z.mod_small in Hsmall; nia.
Qed.

(** [init_assertion] on three channels and a region of 56 bytes, the size of
    a list of three buffers. *)
Lemma init_assertion_witness :
  AEInitAudioBufferList (P := LP64) (Ptr 1 0) 56 three_channels (Ptr 2 0) 12
    (region_heap 12) <> AssertionFailed.
Proof.
  apply (proj2 (init_assertion (P := LP64) 1
                  {| mNumberBuffers := None;
                     mBuffers := [uninit_AudioBuffer; uninit_AudioBuffer] |}
                  56 three_channels (Ptr 2 0) 12 (region_heap 12)
                  eq_refl
                  ltac:(unfold valid_format, is_UInt32; cbn; lia))).
  - vm_compute. reflexivity.
  - unfold is_int. lia.
  - vm_compute. discriminate.
Defined.

(** C4.  [AEInitAudioBufferList] on two channels of four bytes each: the
    claim has buffer 0 at offset 0 and buffer 1 at offset 4.  The code
    leaves buffer 1 as it found it and buffer 0 at offset 4, the offset of
    the last buffer. *)
Theorem init_writes_first_slot_only :
  exists h',
    AEInitAudioBufferList (P := LP64) (Ptr 1 0) 40 (stereo 2) (Ptr 2 0) 8
      (region_heap 8) = Ret tt h' /\
    live h' !! 1 =
      Some (ObjList {| mNumberBuffers := Some 2;
                       mBuffers := [ {| mNumberChannels := Some 1;
                                        mDataByteSize := Some 4;
                                        mData := Some (Ptr 2 4) |};
                                     uninit_AudioBuffer ] |}) /\
    trace h' = [].
Proof.
  eexists. split; [vm_compute; reflexivity|]. split; vm_compute; reflexivity.
Qed.

(** * Further results *)

(** ** Releasing a list that a call has built *)

Lemma filter_all {A} (Q : A -> Prop) `{!forall x, Decision (Q x)} (l : list A) :
  Forall Q l -> filter Q l = l.
Proof.
  induction 1 as [|x l Hx _ IH]; [done|].
  rewrite filter_cons_True by done. by f_equal.
Qed.

Lemma filter_none {A} (Q : A -> Prop) `{!forall x, Decision (Q x)} (l : list A) :
  Forall (fun x => ~ Q x) l -> filter Q l = [].
Proof.
  induction 1 as [|x l Hx _ IH]; [done|].
  by rewrite filter_cons_False.
Qed.

Section BuiltRelease.
Variable h0 : heap.
Variable g : bool.
Variable count : Z.
Variable slot_of : Z -> AudioBuffer.
Variable data_of : Z -> object.

Local Abbreviation built' := (built h0 g count count slot_of data_of).

Hypothesis h0_wf : heap_wf h0.
Hypothesis count_range : 0 <= count <= INT_MAX.
Hypothesis slot_of_data : forall j, 0 <= j < count ->
  mData (slot_of j) = Some (if g then Ptr (data_block h0 j) 0 else NULL).

(** A heap in which a list has been built is well formed. *)
Lemma built_heap_wf i h : built' i h -> heap_wf h.
Proof.
  intros Hbuilt b Hb.
  destruct (Z.lt_ge_cases b (next_block h)) as [|Hge]; [done|].
  rewrite (built_fresh _ _ _ _ _ _ _ _ Hbuilt b Hge) in Hb. by destruct Hb.
Qed.

Lemma built_data_pointers (l : AudioBufferList) :
  buffers l count = slot_of <$> seqZ 0 count ->
  data_pointers (buffers l count) =
  if g then (fun j => Ptr (data_block h0 j) 0) <$> seqZ 0 count else [].
Proof.
  intros ->. unfold data_pointers.
  rewrite (omap_fmap_Some mData slot_of
             (fun j => if g then Ptr (data_block h0 j) 0 else NULL)).
  2:{ apply Forall_seqZ. intros j Hj. apply slot_of_data. lia. }
  destruct g.
  - apply filter_all, Forall_fmap, Forall_forall. by intros j _.
  - apply filter_none, Forall_fmap, Forall_forall. intros j _. cbn. by intros [].
Qed.

Lemma built_owned h :
  built' count h ->
  exists l,
    buffers l count = slot_of <$> seqZ 0 count /\
    owned_list h (list_block h0) l count.
Proof.
  intros Hbuilt.
  destruct (built_buffers _ _ _ _ _ _ _ (proj1 count_range) Hbuilt)
    as (l & Hl & Hstored & Hbufs).
  pose proof Hbuilt as [(l' & Hl' & _ & Hlen & _) Hdata _ _ _].
  assert (l' = l) as -> by congruence.
  exists l. split; [done|].
  pose proof (built_data_pointers l Hbufs) as Hptrs.
  split; try done.
  - rewrite Hbufs. apply Forall_fmap, Forall_seqZ. intros j Hj. cbn.
    rewrite slot_of_data by lia. done.
  - rewrite Hptrs. destruct g; [|by intros p Hp%elem_of_nil].
    intros p Hp. apply list_elem_of_fmap in Hp as (j & -> & Hj%elem_of_seqZ).
    exists (data_block h0 j). split; [done|].
    split; [unfold data_block, list_block; lia|].
    rewrite (Hdata eq_refl j) by lia. done.
  - rewrite Hptrs. destruct g; [|apply NoDup_nil_2].
    apply NoDup_fmap_2; [|apply NoDup_seqZ].
    intros j1 j2 [= Heq]. unfold data_block in Heq. lia.
Qed.

(** Releasing the list gives back the heap the call started from. *)
Lemma built_release h :
  built' count h ->
  exists h',
    AEFreeAudioBufferList (Ptr (list_block h0) 0) h = Ret tt h' /\
    live h' = live h0 /\
    oracle h' = oracle h /\
    trace h' = trace h ++ (if g then frees h0 count
                           else [EvFree (Ptr (list_block h0) 0)]).
Proof.
  intros Hbuilt.
  destruct (built_owned h Hbuilt) as (l & Hbufs & Howned).
  destruct (free_run h (list_block h0) l count Howned)
    as (h' & Hrun & Hlive & _ & Horacle & Htrace).
  pose proof (built_data_pointers l Hbufs) as Hptrs.
  pose proof Hbuilt as [_ _ Hold Hnext Hfresh].
  assert (forall b, next_block h0 <= b -> live h0 !! b = None) as Hnone.
  { intros b Hb. apply eq_None_not_Some. intros Hs. apply h0_wf in Hs. lia. }
  exists h'. split; [done|]. split; [|split; [done|]].
  - apply map_eq. intros b. rewrite Hlive, Hptrs.
    unfold list_block, data_block in *.
    case_decide as Hb.
    + symmetry. apply Hnone. destruct Hb as [->|Hb]; [lia|].
      destruct g; [|by apply elem_of_nil in Hb].
      apply list_elem_of_fmap in Hb as (j & [= ->] & Hj%elem_of_seqZ). lia.
    + destruct (Z.lt_ge_cases b (next_block h0)) as [Hlt|Hge]; [by apply Hold|].
      rewrite (Hnone b Hge). apply Hfresh. rewrite Hnext.
      destruct g; [|lia].
      destruct (Z.lt_ge_cases b (next_block h0 + 1 + count)) as [Hlt|]; [|done].
      assert (b <> next_block h0) by (intros ->; apply Hb; by left).
      destruct Hb. right. apply list_elem_of_fmap.
      exists (b - next_block h0 - 1). split; [f_equal; lia|].
      apply elem_of_seqZ. lia.
  - rewrite Htrace, Hptrs. f_equal. destruct g; [|done].
    unfold frees. by rewrite <- list_fmap_compose.
Qed.

End BuiltRelease.

(** ** AEAllocateAndInitAudioBufferList, continued *)

(** The heap built by a call that returns a list. *)
Lemma allocate_done_built {P : Platform} audioFormat frameCount h p h' :
  0 <= numberOfBuffers audioFormat ->
  allocate_result audioFormat frameCount h p h' -> p <> NULL ->
  p = Ptr (list_block h) 0 /\
  built h (0 <? bytesPerBuffer audioFormat frameCount)
        (numberOfBuffers audioFormat) (numberOfBuffers audioFormat)
        (allocated_slot h (bytesPerBuffer audioFormat frameCount)
                        (channelsPerBuffer audioFormat))
        (allocated_data (bytesPerBuffer audioFormat frameCount))
        (numberOfBuffers audioFormat) h' /\
  logged h (0 <? bytesPerBuffer audioFormat frameCount)
         (allocate_list_size audioFormat)
         (allocated_size (bytesPerBuffer audioFormat frameCount))
         (numberOfBuffers audioFormat) h'.
Proof.
  intros Hn [-> _ _ _ _ | -> Hbuilt Hlogged | k -> _ _ _] Hp; try done.
  split; [done|]. split; [|done].
  rewrite to_UInt32_small in Hbuilt; [done|].
  pose proof (numberOfBuffers_max audioFormat).
  unfold is_UInt32, INT_MAX in *. lia.
Qed.

Lemma bytesPerBuffer_range {P : Platform} audioFormat frameCount :
  is_int (bytesPerBuffer audioFormat frameCount).
Proof. apply to_int_range. Qed.

(** X1.  A list returned by [AEAllocateAndInitAudioBufferList] for a
    positive buffer size owns what it points to: the list is a block that
    was not live before, every buffer points to the start of a block of its
    own, not live before either, of exactly [bytesPerBuffer] bytes, none of
    them written.  The call has made allocator requests only, no [free], and
    has left the blocks that were live as they were. *)
Theorem allocate_storage {P : Platform} audioFormat frameCount h :
  heap_wf h -> valid_format audioFormat ->
  (nonInterleaved audioFormat = true -> mChannelsPerFrame audioFormat <= INT_MAX) ->
  list_fits (numberOfBuffers audioFormat) ->
  0 < bytesPerBuffer audioFormat frameCount ->
  exists p h',
    AEAllocateAndInitAudioBufferList audioFormat frameCount h = Ret p h' /\
    (p <> NULL ->
     exists b l,
       p = Ptr b 0 /\ live h !! b = None /\ live h' !! b = Some (ObjList l) /\
       NoDup (omap mData (buffers l (numberOfBuffers audioFormat))) /\
       Forall (fun s => exists d,
                 mData s = Some (Ptr d 0) /\ d <> b /\ live h !! d = None /\
                 live h' !! d =
                   Some (ObjBytes (replicate
                           (Z.to_nat (bytesPerBuffer audioFormat frameCount)) Undef)))
              (buffers l (numberOfBuffers audioFormat)) /\
       (forall b', is_Some (live h !! b') -> live h' !! b' = live h !! b') /\
       trace h' =
         trace h ++ mallocs h true (allocate_list_size audioFormat)
                            (allocated_size (bytesPerBuffer audioFormat frameCount))
                            (numberOfBuffers audioFormat)).
Proof.
  intros Hwf Hvalid Hmax Hfits Hbytes.
  destruct (numberOfBuffers_valid audioFormat Hvalid Hmax) as [_ Hn0].
  destruct (allocate_run audioFormat frameCount h Hwf Hn0 Hfits)
    as (p & h' & Hrun & Hres).
  exists p, h'. split; [done|]. intros Hp.
  destruct (allocate_done_built _ _ _ _ _ Hn0 Hres Hp) as (-> & Hbuilt & Hlogged).
  destruct (Z.ltb_spec 0 (bytesPerBuffer audioFormat frameCount)); [|lia].
  destruct (built_buffers _ _ _ _ _ _ _ Hn0 Hbuilt) as (l & Hl & _ & Hbufs).
  assert (forall b, next_block h <= b -> live h !! b = None) as Hnone.
  { intros b Hb. apply eq_None_not_Some. intros Hs. apply Hwf in Hs. lia. }
  exists (list_block h), l. split; [done|].
  split; [apply Hnone; unfold list_block; lia|]. split; [done|].
  split; [|split; [|split]].
  - rewrite Hbufs.
    rewrite (omap_fmap_Some mData _ (fun j => Ptr (data_block h j) 0)).
    2:{ apply Forall_seqZ. intros j _. cbn.
        by destruct (Z.ltb_spec 0 (bytesPerBuffer audioFormat frameCount)); [|lia]. }
    apply NoDup_fmap_2; [|apply NoDup_seqZ].
    intros j1 j2 [= Heq]. unfold data_block in Heq. lia.
  - rewrite Hbufs. apply Forall_fmap, Forall_seqZ. intros j Hj. cbn.
    exists (data_block h j).
    destruct (Z.ltb_spec 0 (bytesPerBuffer audioFormat frameCount)); [|lia].
    split; [done|]. split; [unfold data_block, list_block; lia|].
    split; [apply Hnone; unfold data_block; lia|].
    rewrite (built_data _ _ _ _ _ _ _ _ Hbuilt eq_refl) by lia.
    unfold allocated_data, as_bytes. rewrite to_size_t_small; [done|].
    pose proof (bytesPerBuffer_range audioFormat frameCount) as Hr.
    unfold is_int, is_UInt32 in *. lia.
  - intros b' Hb'. apply (built_old _ _ _ _ _ _ _ _ Hbuilt). by apply Hwf.
  - by destruct Hlogged.
Qed.

(** [allocate_storage] on 100 frames of 16-bit stereo. *)
Lemma allocate_storage_witness :
  exists p h',
    AEAllocateAndInitAudioBufferList (P := LP64) (stereo 4) 100 (fresh_heap 3)
      = Ret p h' /\
    (p <> NULL -> exists b l, p = Ptr b 0 /\ live h' !! b = Some (ObjList l)).
Proof.
  destruct (allocate_storage (P := LP64) (stereo 4) 100 (fresh_heap 3))
    as (p & h' & Hrun & Hres).
  - apply heap_wf_empty.
  - apply stereo_valid. unfold is_UInt32. lia.
  - intros _. unfold INT_MAX. cbn. lia.
  - vm_compute. reflexivity.
  - vm_compute. reflexivity.
  - exists p, h'. split; [exact Hrun|]. intros Hp.
    destruct (Hres Hp) as (b & l & Hb & _ & Hl & _). exists b, l. split; assumption.
Defined.

(** X2.  A buffer size [mBytesPerFrame * frameCount] of 2 GiB or more that
    still fits [UInt32] is negative as an [int]: the call then allocates no
    buffer storage, and returns a list whose buffers record the full size
    beside a null data pointer. *)
Theorem allocate_two_gigabytes {P : Platform} audioFormat frameCount h o :
  heap_wf h -> valid_format audioFormat ->
  (nonInterleaved audioFormat = true -> mChannelsPerFrame audioFormat <= INT_MAX) ->
  list_fits (numberOfBuffers audioFormat) ->
  2 ^ 31 <= mBytesPerFrame audioFormat * frameCount < 2 ^ 32 ->
  oracle h = true :: o ->
  exists b l h',
    AEAllocateAndInitAudioBufferList audioFormat frameCount h = Ret (Ptr b 0) h' /\
    oracle h' = o /\
    live h' !! b = Some (ObjList l) /\
    Z.of_nat (length (buffers l (numberOfBuffers audioFormat))) =
      numberOfBuffers audioFormat /\
    Forall (fun s =>
              mData s = Some NULL /\
              mDataByteSize s = Some (mBytesPerFrame audioFormat * frameCount))
           (buffers l (numberOfBuffers audioFormat)).
Proof.
  intros Hwf Hvalid Hmax Hfits Hsize Ho.
  destruct (numberOfBuffers_valid audioFormat Hvalid Hmax) as [_ Hn0].
  assert (bytesPerBuffer audioFormat frameCount =
          mBytesPerFrame audioFormat * frameCount - 2 ^ 32) as Hbytes.
  { unfold bytesPerBuffer.
    rewrite (to_UInt32_small (mBytesPerFrame audioFormat * frameCount))
      by (unfold is_UInt32; lia).
    unfold to_int.
    replace (mBytesPerFrame audioFormat * frameCount + 2 ^ 31)
      with (mBytesPerFrame audioFormat * frameCount - 2 ^ 31 + 1 * 2 ^ 32) by lia.
    rewrite Z_mod_plus_full, Z.mod_small; lia. }
  destruct (allocate_run audioFormat frameCount h Hwf Hn0 Hfits)
    as (p & h' & Hrun & Hres).
  assert (p <> NULL) as Hp.
  { destruct Hres as [-> Hrf _ _ _ | -> _ _ | k -> Hpos _ _]; [|done|lia].
    rewrite Ho in Hrf. done. }
  destruct (allocate_done_built _ _ _ _ _ Hn0 Hres Hp) as (-> & Hbuilt & Hlogged).
  destruct (Z.ltb_spec 0 (bytesPerBuffer audioFormat frameCount)); [lia|].
  destruct (built_buffers _ _ _ _ _ _ _ Hn0 Hbuilt) as (l & Hl & _ & Hbufs).
  exists (list_block h), l, h'. split; [done|].
  split.
  { destruct Hlogged as [_ Horacle]. rewrite Ho in Horacle. by injection Horacle. }
  split; [done|]. split.
  - rewrite Hbufs, length_fmap, length_seqZ. lia.
  - rewrite Hbufs. apply Forall_fmap, Forall_seqZ. intros j _. cbn.
    destruct (Z.ltb_spec 0 (bytesPerBuffer audioFormat frameCount)); [lia|].
    split; [done|]. f_equal.
    rewrite bytesPerBuffer_stored. apply to_UInt32_small. unfold is_UInt32. lia.
Qed.

(** [allocate_two_gigabytes] on [2^29] frames of four bytes. *)
Lemma allocate_two_gigabytes_witness :
  exists b h',
    AEAllocateAndInitAudioBufferList (P := LP64) (stereo 4) (2 ^ 29) (fresh_heap 1)
      = Ret (Ptr b 0) h' /\ oracle h' = [].
Proof.
  destruct (allocate_two_gigabytes (P := LP64) (stereo 4) (2 ^ 29) (fresh_heap 1) [])
    as (b & l & h' & Hrun & Horacle & _).
  - apply heap_wf_empty.
  - apply stereo_valid. unfold is_UInt32. lia.
  - intros _. unfold INT_MAX. cbn. lia.
  - vm_compute. reflexivity.
  - cbn. lia.
  - reflexivity.
  - exists b, h'. split; assumption.
Defined.

(** X3.  [AEFreeAudioBufferList] on a list that
    [AEAllocateAndInitAudioBufferList] has just returned gives back the heap
    from before the allocation, whether the buffers had storage or not. *)
Theorem allocate_then_free {P : Platform} audioFormat frameCount h :
  heap_wf h -> valid_format audioFormat ->
  (nonInterleaved audioFormat = true -> mChannelsPerFrame audioFormat <= INT_MAX) ->
  list_fits (numberOfBuffers audioFormat) ->
  exists p h1,
    AEAllocateAndInitAudioBufferList audioFormat frameCount h = Ret p h1 /\
    (p <> NULL ->
     exists h2, AEFreeAudioBufferList p h1 = Ret tt h2 /\ live h2 = live h).
Proof.
  intros Hwf Hvalid Hmax Hfits.
  destruct (numberOfBuffers_valid audioFormat Hvalid Hmax) as [_ Hn0].
  destruct (allocate_run audioFormat frameCount h Hwf Hn0 Hfits)
    as (p & h1 & Hrun & Hres).
  exists p, h1. split; [done|]. intros Hp.
  destruct (allocate_done_built _ _ _ _ _ Hn0 Hres Hp) as (-> & Hbuilt & _).
  destruct (built_release h (0 <? bytesPerBuffer audioFormat frameCount)
              (numberOfBuffers audioFormat)
              (allocated_slot h (bytesPerBuffer audioFormat frameCount)
                              (channelsPerBuffer audioFormat))
              (allocated_data (bytesPerBuffer audioFormat frameCount)) Hwf
              (conj Hn0 (numberOfBuffers_max audioFormat))
              (fun j _ => eq_refl) h1 Hbuilt)
    as (h2 & Hfree & Hlive & _).
  exists h2. done.
Qed.

(** [allocate_then_free] on 100 frames of 16-bit stereo, from an empty heap. *)
Lemma allocate_then_free_witness :
  exists p h1,
    AEAllocateAndInitAudioBufferList (P := LP64) (stereo 4) 100 (fresh_heap 3)
      = Ret p h1 /\
    (p <> NULL ->
     exists h2, AEFreeAudioBufferList p h1 = Ret tt h2 /\ live h2 = ∅).
Proof.
  apply (allocate_then_free (P := LP64) (stereo 4) 100 (fresh_heap 3)).
  - apply heap_wf_empty.
  - apply stereo_valid. unfold is_UInt32. lia.
  - intros _. unfold INT_MAX. cbn. lia.
  - vm_compute. reflexivity.
Defined.

(** X4.  When the allocator refuses the storage of the list itself,
    [AEAllocateAndInitAudioBufferList] and [AECopyAudioBufferList] return
    [NULL] after that one request: no other request, no [free], no store. *)
Theorem list_refused {P : Platform} h :
  head (oracle h) <> Some true ->
  (forall audioFormat frameCount,
     exists h',
       AEAllocateAndInitAudioBufferList audioFormat frameCount h = Ret NULL h' /\
       live h' = live h /\
       trace h' = trace h ++ [EvMalloc (allocate_list_size audioFormat) NULL]) /\
  (forall original lo count,
     live h !! original = Some (ObjList lo) -> mNumberBuffers lo = Some count ->
     exists h',
       AECopyAudioBufferList (Ptr original 0) h = Ret NULL h' /\
       live h' = live h /\
       trace h' = trace h ++ [EvMalloc (copy_list_size count) NULL]).
Proof.
  intros Hrf. split.
  - intros audioFormat frameCount. unfold AEAllocateAndInitAudioBufferList.
    rewrite run_bind, (malloc_refused _ _ _ Hrf). cbn [is_null].
    eexists. split; [reflexivity|]. done.
  - intros original lo count Hlo Hcount. unfold AECopyAudioBufferList.
    rewrite run_bind, (load_mNumberBuffers_live _ _ _ _ Hlo Hcount).
    rewrite run_bind, (malloc_refused _ _ _ Hrf). cbn [is_null].
    eexists. split; [reflexivity|]. done.
Qed.

(** [list_refused] with an allocator that grants nothing. *)
Lemma list_refused_witness :
  (exists h',
     AEAllocateAndInitAudioBufferList (P := LP64) (stereo 4) 100 (two_buffer_heap [])
       = Ret NULL h') /\
  (exists h',
     AECopyAudioBufferList (P := LP64) (Ptr 1 0) (two_buffer_heap []) = Ret NULL h').
Proof.
  destruct (list_refused (P := LP64) (two_buffer_heap [])) as [Hallocate Hcopy].
  - discriminate.
  - split.
    + destruct (Hallocate (stereo 4) 100) as (h' & Hrun & _). exists h'. exact Hrun.
    + destruct (Hcopy 1 two_buffer_list 2) as (h' & Hrun & _);
        [reflexivity|reflexivity|]. exists h'. exact Hrun.
Defined.

(** ** AECopyAudioBufferList, continued *)

Lemma copy_done_built {P : Platform} h lo count p h' :
  copy_result h lo count p h' -> p <> NULL ->
  p = Ptr (list_block h) 0 /\
  built h true count count (copied_slot h lo) (copied_data h lo) count h' /\
  logged h true (copy_list_size count) (copied_size lo) count h'.
Proof. by intros [-> _ _ _ _ | -> Hbuilt Hlogged | k -> _ _] Hp. Qed.

Lemma copied_slot_data h original lo count j :
  readable_list h original lo count -> 0 <= j < count ->
  mData (copied_slot h lo j) = Some (Ptr (data_block h j) 0).
Proof.
  intros [_ _ _ Hslots] Hj. unfold copied_slot.
  destruct (Hslots j Hj) as (s & _ & _ & -> & _). done.
Qed.

(** X5.  [AEFreeAudioBufferList] on a list that [AECopyAudioBufferList] has
    just returned gives back the heap from before the copy: the storage of
    the copy is gone and the original is as it was. *)
Theorem copy_then_free {P : Platform} original lo count h :
  heap_wf h -> readable_list h original lo count -> list_fits count ->
  exists p h1,
    AECopyAudioBufferList (Ptr original 0) h = Ret p h1 /\
    (p <> NULL ->
     exists h2, AEFreeAudioBufferList p h1 = Ret tt h2 /\ live h2 = live h).
Proof.
  intros Hwf Hsrc Hfits.
  destruct (copy_run h original lo count Hwf Hsrc Hfits) as (p & h1 & Hrun & Hres).
  exists p, h1. split; [done|]. intros Hp.
  destruct (copy_done_built _ _ _ _ _ Hres Hp) as (-> & Hbuilt & _).
  destruct (built_release h true count (copied_slot h lo) (copied_data h lo) Hwf
              (readable_bound _ _ _ _ Hsrc)
              (fun j => copied_slot_data h original lo count j Hsrc) h1 Hbuilt)
    as (h2 & Hfree & Hlive & _).
  exists h2. done.
Qed.

(** [copy_then_free] on the list of two buffers. *)
Lemma copy_then_free_witness :
  exists p h1,
    AECopyAudioBufferList (P := LP64) (Ptr 1 0) (two_buffer_heap [true; true; true])
      = Ret p h1 /\
    (p <> NULL ->
     exists h2, AEFreeAudioBufferList p h1 = Ret tt h2 /\
                live h2 = live (two_buffer_heap [true; true; true])).
Proof.
  apply (copy_then_free (P := LP64) 1 two_buffer_list 2).
  - apply two_buffer_heap_wf.
  - apply two_buffer_heap_readable.
  - vm_compute. reflexivity.
Defined.

(** X6.  The frame count of a copy is the frame count of the original, for
    every format: [AEGetNumberOfFramesInAudioBufferList] returns the same
    number on both, or is undefined on both. *)
Theorem copy_frame_count {P : Platform} original lo count h :
  heap_wf h -> readable_list h original lo count -> list_fits count ->
  1 <= count ->
  exists p h1,
    AECopyAudioBufferList (Ptr original 0) h = Ret p h1 /\
    (p <> NULL ->
     forall audioFormat,
       AEGetNumberOfFramesInAudioBufferList p audioFormat NULL h1 =
       match AEGetNumberOfFramesInAudioBufferList (Ptr original 0) audioFormat NULL h with
       | Ret frames _ => Ret frames h1
       | AssertionFailed => AssertionFailed
       | Undefined => Undefined
       end).
Proof.
  intros Hwf Hsrc Hfits Hcount.
  destruct (copy_run h original lo count Hwf Hsrc Hfits) as (p & h1 & Hrun & Hres).
  exists p, h1. split; [done|]. intros Hp audioFormat.
  destruct (copy_done_built _ _ _ _ _ Hres Hp) as (-> & Hbuilt & _).
  pose proof Hsrc as [Hlo Hn _ Hslots].
  destruct (Hslots 0) as (s & channels & size & Hs & Hch & Hsz & _); [lia|].
  destruct Hbuilt as [(l & Hl & Hstored & _ & Hcopied) _ _ _ _].
  specialize (Hcopied 0 ltac:(lia)).
  assert (copied_slot h lo 0 =
          {| mNumberChannels := Some channels; mDataByteSize := Some size;
             mData := Some (Ptr (data_block h 0) 0) |}) as Hslot.
  { unfold copied_slot. by rewrite Hs, Hch, Hsz. }
  rewrite Hslot in Hcopied.
  set (c := if nonInterleaved audioFormat then count else channels).
  rewrite (frames_run _ _ _ size c _ _ _ Hl Hcopied eq_refl);
    [|subst c; by destruct (nonInterleaved audioFormat)|by left].
  rewrite (frames_run _ _ _ size c _ _ _ Hlo Hs Hsz);
    [|subst c; by destruct (nonInterleaved audioFormat)|by left].
  cbn zeta. by destruct (_ =? 0).
Qed.

(** [copy_frame_count] on the list of two buffers. *)
Lemma copy_frame_count_witness :
  exists p h1,
    AECopyAudioBufferList (P := LP64) (Ptr 1 0) (two_buffer_heap [true; true; true])
      = Ret p h1 /\
    (p <> NULL ->
     AEGetNumberOfFramesInAudioBufferList (P := LP64) p mono NULL h1 = Ret 2 h1).
Proof.
  destruct (copy_frame_count (P := LP64) 1 two_buffer_list 2
              (two_buffer_heap [true; true; true]))
    as (p & h1 & Hrun & Hframes).
  - apply two_buffer_heap_wf.
  - apply two_buffer_heap_readable.
  - vm_compute. reflexivity.
  - lia.
  - exists p, h1. split; [exact Hrun|]. intros Hp. exact (Hframes Hp mono).
Defined.

(** X7.  A list allocated for a buffer size that is not negative can be
    copied: [AECopyAudioBufferList] returns on it, and a copy that is
    returned is a list in another block with the same buffer count, byte
    sizes and channel counts. *)
Theorem copy_of_allocated {P : Platform} audioFormat frameCount h :
  heap_wf h -> valid_format audioFormat ->
  (nonInterleaved audioFormat = true -> mChannelsPerFrame audioFormat <= INT_MAX) ->
  list_fits (numberOfBuffers audioFormat) ->
  0 <= bytesPerBuffer audioFormat frameCount ->
  exists p h1,
    AEAllocateAndInitAudioBufferList audioFormat frameCount h = Ret p h1 /\
    (p <> NULL ->
     exists q h2,
       AECopyAudioBufferList p h1 = Ret q h2 /\
       (q <> NULL ->
        exists b l,
          q = Ptr b 0 /\ p <> q /\ live h2 !! b = Some (ObjList l) /\
          mNumberBuffers l = Some (numberOfBuffers audioFormat) /\
          Z.of_nat (length (buffers l (numberOfBuffers audioFormat))) =
            numberOfBuffers audioFormat /\
          Forall (fun s =>
                    mDataByteSize s = Some (bytesPerBuffer audioFormat frameCount) /\
                    mNumberChannels s =
                      Some (if nonInterleaved audioFormat then 1
                            else mChannelsPerFrame audioFormat))
                 (buffers l (numberOfBuffers audioFormat)))).
Proof.
  intros Hwf Hvalid Hmax Hfits Hbytes.
  destruct (numberOfBuffers_valid audioFormat Hvalid Hmax) as [_ Hn0].
  pose proof (numberOfBuffers_max audioFormat) as Hnmax.
  pose proof (bytesPerBuffer_range audioFormat frameCount) as Hrange.
  destruct (allocate_run audioFormat frameCount h Hwf Hn0 Hfits)
    as (p & h1 & Hrun & Hres).
  exists p, h1. split; [done|]. intros Hp.
  destruct (allocate_done_built _ _ _ _ _ Hn0 Hres Hp) as (-> & Hbuilt & _).
  set (n := numberOfBuffers audioFormat) in *.
  set (bytes := bytesPerBuffer audioFormat frameCount) in *.
  assert (to_UInt32 bytes = bytes) as Hstored.
  { apply to_UInt32_small. unfold is_int, is_UInt32 in *. lia. }
  pose proof Hbuilt as [(l & Hl & Hcount & _ & Hslots) Hdata _ _ _].
  assert (heap_wf h1) as Hwf1.
  { eapply built_heap_wf. exact Hbuilt. }
  assert (readable_list h1 (list_block h) l n) as Hsrc.
  { split; [done|done|done|].
    intros j Hj. eexists _, _, _. split; [by apply Hslots|]. cbn.
    split; [done|]. split; [done|]. split; [apply to_UInt32_range|].
    split; [done|]. unfold source_bytes. cbn. rewrite Hstored.
    destruct (Z.eqb_spec bytes 0) as [|Hnz]; [done|].
    destruct (Z.ltb_spec 0 bytes); [|lia].
    unfold bytes_at. rewrite (Hdata eq_refl j Hj).
    unfold allocated_data, as_bytes. fold bytes.
    rewrite to_size_t_small by (unfold is_int, is_UInt32 in *; lia).
    rewrite length_replicate.
    destruct (Z.leb_spec 0 bytes); [|lia].
    destruct (Z.leb_spec (0 + bytes) (Z.of_nat (Z.to_nat bytes))); [|lia].
    done. }
  destruct (copy_run h1 (list_block h) l n Hwf1 Hsrc Hfits)
    as (q & h2 & Hcopy & Hres2).
  exists q, h2. split; [done|]. intros Hq.
  destruct (copy_done_built _ _ _ _ _ Hres2 Hq) as (-> & Hbuilt2 & _).
  destruct (built_buffers _ _ _ _ _ _ _ Hn0 Hbuilt2) as (l2 & Hl2 & Hcount2 & Hbufs2).
  exists (list_block h1), l2. split; [done|]. split.
  { intros [= Heq]. unfold list_block in Heq.
    rewrite (built_next _ _ _ _ _ _ _ _ Hbuilt) in Heq.
    unfold list_block in Heq. destruct (0 <? bytes); lia. }
  split; [done|]. split; [done|]. split.
  - rewrite Hbufs2, length_fmap, length_seqZ. lia.
  - rewrite Hbufs2. apply Forall_fmap, Forall_seqZ. intros j Hj.
    unfold compose, copied_slot. rewrite (Hslots j) by lia. cbn.
    rewrite Hstored. split; [done|]. f_equal.
    by apply channelsPerBuffer_stored.
Qed.

(** [copy_of_allocated] on 100 frames of 16-bit stereo. *)
Lemma copy_of_allocated_witness :
  exists p h1,
    AEAllocateAndInitAudioBufferList (P := LP64) (stereo 4) 100 (fresh_heap 6)
      = Ret p h1 /\
    (p <> NULL -> exists q h2, AECopyAudioBufferList (P := LP64) p h1 = Ret q h2).
Proof.
  destruct (copy_of_allocated (P := LP64) (stereo 4) 100 (fresh_heap 6))
    as (p & h1 & Hrun & Hcopy).
  - apply heap_wf_empty.
  - apply stereo_valid. unfold is_UInt32. lia.
  - intros _. unfold INT_MAX. cbn. lia.
  - vm_compute. reflexivity.
  - vm_compute. discriminate.
  - exists p, h1. split; [exact Hrun|]. intros Hp.
    destruct (Hcopy Hp) as (q & h2 & Hq & _). exists q, h2. exact Hq.
Defined.

(** ** AEFreeAudioBufferList, continued *)

(** X8.  A list is released once: after [AEFreeAudioBufferList] has returned,
    a second call on the same list is undefined. *)
Theorem free_twice h bufferList l count :
  owned_list h bufferList l count ->
  exists h',
    AEFreeAudioBufferList (Ptr bufferList 0) h = Ret tt h' /\
    AEFreeAudioBufferList (Ptr bufferList 0) h' = Undefined.
Proof.
  intros Howned.
  destruct (free_run h bufferList l count Howned) as (h' & Hrun & Hlive & _).
  exists h'. split; [done|].
  unfold AEFreeAudioBufferList. rewrite run_bind.
  unfold load_mNumberBuffers, list_at. rewrite Hlive.
  by rewrite decide_True by (by left).
Qed.

(** [free_twice] on the list of two buffers. *)
Lemma free_twice_witness :
  exists h',
    AEFreeAudioBufferList (Ptr 1 0) (two_buffer_heap []) = Ret tt h' /\
    AEFreeAudioBufferList (Ptr 1 0) h' = Undefined.
Proof.
  apply (free_twice (two_buffer_heap []) 1 two_buffer_list 2).
  apply two_buffer_heap_owned.
Defined.

(** X9.  Copying a list of no buffers: [mNumberBuffers - 1] is computed in
    [UInt32], so the request for the list is for [2^32] buffers.  Where
    [size_t] holds that size the allocator is asked for more than four
    gigabytes, while [AEAllocateAndInitAudioBufferList] asks for the count
    field alone when the format gives no buffers. *)
Theorem copy_empty_list {P : Platform} original lo h :
  heap_wf h ->
  live h !! original = Some (ObjList lo) -> mNumberBuffers lo = Some 0 ->
  offsetof_mBuffers + 2 ^ 32 * sizeof_AudioBuffer < 2 ^ size_t_bits ->
  (exists p h',
     AECopyAudioBufferList (Ptr original 0) h = Ret p h' /\
     trace h' = trace h ++
       [EvMalloc (offsetof_mBuffers + 2 ^ 32 * sizeof_AudioBuffer) p]) /\
  (forall audioFormat,
     numberOfBuffers audioFormat = 0 ->
     allocate_list_size audioFormat = offsetof_mBuffers).
Proof.
  intros Hwf Hlo Hcount Hwide.
  pose proof sizeof_AudioBuffer_pos. pose proof sizeof_header.
  assert (copy_list_size 0 = offsetof_mBuffers + 2 ^ 32 * sizeof_AudioBuffer)
    as Hsize.
  { unfold copy_list_size. rewrite to_size_t_list.
    change (to_UInt32 (0 - 1) + 1) with (2 ^ 32).
    apply Z.mod_small. unfold offsetof_mBuffers in *. lia. }
  split.
  - assert (readable_list h original lo 0) as Hsrc.
    { split; [done|done|unfold INT_MAX; lia|lia]. }
    assert (list_fits 0) as Hfits.
    { unfold list_fits. unfold offsetof_mBuffers in *. nia. }
    destruct (copy_run h original lo 0 Hwf Hsrc Hfits) as (p & h' & Hrun & Hres).
    exists p, h'. split; [done|]. rewrite <- Hsize.
    destruct Hres as [-> _ _ Htrace _ | -> _ [Htrace _] | k _ ? _]; [done| |lia].
    by rewrite Htrace.
  - intros audioFormat Hn. unfold allocate_list_size. rewrite Hn.
    rewrite to_size_t_list.
    change (to_int (0 - 1) + 1) with 0. rewrite Z.mul_0_l, Z.add_0_r.
    apply Z.mod_small. unfold offsetof_mBuffers in *. lia.
Qed.

(** [copy_empty_list] in the 64-bit ABI: the request is for 64 GiB and
    eight bytes. *)
Lemma copy_empty_list_witness :
  exists p h',
    AECopyAudioBufferList (P := LP64) (Ptr 1 0) (empty_list_heap [true])
      = Ret p h' /\
    trace h' = [EvMalloc 68719476744 p].
Proof.
  destruct (copy_empty_list (P := LP64) 1 {| mNumberBuffers := Some 0; mBuffers := [] |}
              (empty_list_heap [true]))
    as [(p & h' & Hrun & Htrace) _].
  - apply heap_wf_check. vm_compute. reflexivity.
  - reflexivity.
  - reflexivity.
  - vm_compute. reflexivity.
  - exists p, h'. split; [exact Hrun|exact Htrace].
Defined.

(** ** AEInitAudioBufferList, continued *)

Lemma set_live_insert_insert b o1 o2 h :
  set_live <[b := o2]> (set_live <[b := o1]> h) = set_live <[b := o2]> h.
Proof. unfold set_live. cbn. f_equal. apply insert_insert_eq. Qed.

Section InitRun.
Context {P : Platform}.
Variable bufferList : block.
Variable audioFormat : AudioStreamBasicDescription.
Variables data ofs dataSize count : Z.
Hypothesis count_range : 1 <= count <= INT_MAX.

Lemma init_buffers_run n : forall i l s h,
  live h !! bufferList = Some (ObjList l) ->
  mNumberBuffers l = Some count ->
  mBuffers l !! 0%nat = Some s ->
  0 <= i -> i + Z.of_nat n <= count ->
  init_buffers n i (Ptr bufferList 0) audioFormat (Ptr data ofs) dataSize h =
  Ret tt
    match n with
    | O => h
    | S _ =>
        set_live <[bufferList := ObjList
          {| mNumberBuffers := Some count;
             mBuffers := <[0%nat := init_slot audioFormat data ofs dataSize count
                                      (i + Z.of_nat n - 1)]> (mBuffers l) |}]> h
    end.
Proof.
  induction n as [|n IH]; intros i l s h Hl Hcount Hs Hi Hn; [done|].
  assert (0 <= 0) as H0 by lia.
  assert ((count =? 0) = false) as Hnz by lia.
  cbn [init_buffers].
  rewrite run_bind, (store_mNumberChannels_live _ _ _ _ _ _ Hl H0 Hs).
  set (h1 := set_live _ h).
  assert (live h1 !! bufferList = Some (ObjList
            {| mNumberBuffers := mNumberBuffers l;
               mBuffers := <[0%nat := set_mNumberChannels
                   (to_UInt32 (if nonInterleaved audioFormat then 1
                               else mChannelsPerFrame audioFormat)) s]> (mBuffers l) |}))
    as Hl1 by (subst h1; cbn; apply lookup_insert_eq).
  apply lookup_lt_Some in Hs as Hlen.
  rewrite run_bind, (load_mNumberBuffers_live _ _ _ _ Hl1 Hcount).
  rewrite run_bind. unfold udiv at 1. rewrite Hnz, run_ret.
  rewrite run_bind. unfold ptr_add. rewrite run_ret.
  rewrite run_bind.
  rewrite (store_mData_live _ _ _ _ _ _ Hl1 H0 (list_lookup_insert_eq _ _ _ Hlen)).
  subst h1. rewrite set_live_insert_insert. cbn [mNumberBuffers mBuffers].
  rewrite list_insert_insert_eq.
  match goal with |- context [set_mData ?p ?x] => set (s2 := set_mData p x) end.
  set (h2 := set_live _ h).
  assert (live h2 !! bufferList = Some (ObjList
            {| mNumberBuffers := mNumberBuffers l;
               mBuffers := <[0%nat := s2]> (mBuffers l) |}))
    as Hl2 by (subst h2; cbn; apply lookup_insert_eq).
  rewrite run_bind, (load_mNumberBuffers_live _ _ _ _ Hl2 Hcount).
  rewrite run_bind. unfold udiv. rewrite Hnz, run_ret.
  rewrite run_bind.
  rewrite (store_mDataByteSize_live _ _ _ _ _ _ Hl2 H0 (list_lookup_insert_eq _ _ _ Hlen)).
  subst h2. rewrite set_live_insert_insert. cbn [mNumberBuffers mBuffers].
  rewrite list_insert_insert_eq.
  set (h3 := set_live _ h).
  assert (set_mDataByteSize (to_UInt32 dataSize / count) s2
          = init_slot audioFormat data ofs dataSize count i) as Hslot by done.
  rewrite to_int_succ by lia.
  erewrite IH; [|subst h3; cbn; apply lookup_insert_eq|exact Hcount| |lia|lia].
  2: { cbn. apply list_lookup_insert_eq. done. }
  f_equal. destruct n as [|n].
  - subst h3. rewrite Hslot, Hcount.
    by replace (i + Z.of_nat 1 - 1) with i by lia.
  - subst h3. rewrite set_live_insert_insert. cbn [mBuffers].
    rewrite list_insert_insert_eq.
    by replace (i + 1 + Z.of_nat (S n) - 1) with (i + Z.of_nat (S (S n)) - 1) by lia.
Qed.

End InitRun.

Lemma init_run {P : Platform} bufferList l s listSize audioFormat
    data ofs dataSize h :
  let count := if nonInterleaved audioFormat
               then mChannelsPerFrame audioFormat else 1 in
  live h !! bufferList = Some (ObjList l) ->
  mBuffers l !! 0%nat = Some s ->
  1 <= count <= INT_MAX ->
  (count = 1 \/
   to_size_t (sizeof_AudioBufferList + sizeof_AudioBuffer) <= to_size_t listSize) ->
  AEInitAudioBufferList (Ptr bufferList 0) listSize audioFormat (Ptr data ofs)
    dataSize h =
  Ret tt (set_live <[bufferList := ObjList
            {| mNumberBuffers := Some count;
               mBuffers := <[0%nat := init_slot audioFormat data ofs dataSize
                                        count (count - 1)]> (mBuffers l) |}]> h).
Proof.
  intros count Hl Hs Hcount Hroom.
  assert (to_UInt32 count = count) as Hstored.
  { apply to_UInt32_small. unfold is_UInt32, INT_MAX in *. lia. }
  unfold AEInitAudioBufferList. fold count. rewrite Hstored.
  rewrite run_bind, (store_mNumberBuffers_live _ _ _ _ Hl).
  set (h1 := set_live _ h).
  assert (live h1 !! bufferList = Some (ObjList
            {| mNumberBuffers := Some count; mBuffers := mBuffers l |}))
    as Hl1 by (subst h1; cbn; apply lookup_insert_eq).
  rewrite run_bind, (load_mNumberBuffers_live _ _ _ _ Hl1 eq_refl).
  rewrite run_bind.
  assert ((count =? 1)
          || (to_size_t (sizeof_AudioBufferList + sizeof_AudioBuffer)
              <=? to_size_t listSize) = true) as ->.
  { apply orb_true_iff. destruct Hroom; [left|right]; lia. }
  unfold assert.
  rewrite run_bind, (load_mNumberBuffers_live _ _ _ _ Hl1 eq_refl).
  rewrite (init_buffers_run bufferList audioFormat data ofs dataSize count Hcount
             (Z.to_nat count) 0 _ s h1 Hl1 eq_refl Hs) by lia.
  f_equal. destruct (Z.to_nat count) as [|n] eqn:Hn; [lia|].
  subst h1. rewrite set_live_insert_insert. cbn [mBuffers].
  by replace (0 + Z.of_nat (S n) - 1) with (count - 1) by lia.
Qed.

(** X10.  What [AEInitAudioBufferList] leaves behind, for any number of
    buffers: the count field holds the number of buffers; the first slot
    holds the channel count, the size of one buffer and the data pointer of
    the last buffer; every other slot, every other block and the allocator
    are as before the call. *)
Theorem init_effect {P : Platform} bufferList l s listSize audioFormat
    data ofs dataSize h :
  let count := if nonInterleaved audioFormat
               then mChannelsPerFrame audioFormat else 1 in
  live h !! bufferList = Some (ObjList l) ->
  mBuffers l !! 0%nat = Some s ->
  1 <= count <= INT_MAX ->
  (count = 1 \/
   to_size_t (sizeof_AudioBufferList + sizeof_AudioBuffer) <= to_size_t listSize) ->
  exists h' l',
    AEInitAudioBufferList (Ptr bufferList 0) listSize audioFormat (Ptr data ofs)
      dataSize h = Ret tt h' /\
    live h' !! bufferList = Some (ObjList l') /\
    mNumberBuffers l' = Some count /\
    mBuffers l' !! 0%nat =
      Some {| mNumberChannels :=
                Some (if nonInterleaved audioFormat then 1
                      else to_UInt32 (mChannelsPerFrame audioFormat));
              mDataByteSize := Some (to_UInt32 dataSize / count);
              mData := Some (Ptr data
                (ofs + to_UInt32 ((count - 1) * (to_UInt32 dataSize / count)))) |} /\
    length (mBuffers l') = length (mBuffers l) /\
    (forall j, j <> 0%nat -> mBuffers l' !! j = mBuffers l !! j) /\
    (forall b, b <> bufferList -> live h' !! b = live h !! b) /\
    next_block h' = next_block h /\ oracle h' = oracle h /\ trace h' = trace h.
Proof.
  intros count Hl Hs Hcount Hroom.
  eexists _, _. split; [by apply (init_run bufferList l s)|].
  apply lookup_lt_Some in Hs as Hlen.
  split; [cbn; apply lookup_insert_eq|].
  split; [done|]. cbn [mBuffers]. split.
  { rewrite list_lookup_insert_eq by done. unfold init_slot. fold count.
    rewrite (to_UInt32_small (count - 1))
      by (unfold is_UInt32, INT_MAX in *; lia).
    subst count. by destruct (nonInterleaved audioFormat). }
  split; [apply length_insert|].
  split; [intros j Hj; by apply list_lookup_insert_ne|].
  split; [intros b Hb; cbn; by apply lookup_insert_ne|done].
Qed.

(** [init_effect] on two channels of four bytes each: the first slot has the
    data pointer of the second buffer. *)
Lemma init_effect_witness :
  exists h' l',
    AEInitAudioBufferList (P := LP64) (Ptr 1 0) 40 (stereo 2) (Ptr 2 0) 8
      (region_heap 8) = Ret tt h' /\
    live h' !! 1 = Some (ObjList l') /\
    mBuffers l' !! 0%nat =
      Some {| mNumberChannels := Some 1; mDataByteSize := Some 4;
              mData := Some (Ptr 2 4) |} /\
    mBuffers l' !! 1%nat = Some uninit_AudioBuffer.
Proof.
  destruct (init_effect (P := LP64) 1
              {| mNumberBuffers := None;
                 mBuffers := [uninit_AudioBuffer; uninit_AudioBuffer] |}
              uninit_AudioBuffer 40 (stereo 2) 2 0 8 (region_heap 8))
    as (h' & l' & Hrun & Hl & _ & Hfirst & _ & Hrest & _).
  - reflexivity.
  - reflexivity.
  - vm_compute. split; discriminate.
  - right. vm_compute. discriminate.
  - exists h', l'. split; [exact Hrun|]. split; [exact Hl|].
    split; [exact Hfirst|]. rewrite Hrest by discriminate. reflexivity.
Defined.

(** X11.  The frame count of a view that [AEInitAudioBufferList] has just
    made: the size of one buffer, [dataSize / count], divided by the bytes
    of one sample times the channels of a frame. *)
Theorem init_frame_count {P : Platform} bufferList l s listSize audioFormat
    data ofs dataSize h :
  let count := if nonInterleaved audioFormat
               then mChannelsPerFrame audioFormat else 1 in
  let divisor := to_UInt32 (mBitsPerChannel audioFormat / 8
                            * to_UInt32 (mChannelsPerFrame audioFormat)) in
  live h !! bufferList = Some (ObjList l) ->
  mBuffers l !! 0%nat = Some s ->
  1 <= count <= INT_MAX ->
  (count = 1 \/
   to_size_t (sizeof_AudioBufferList + sizeof_AudioBuffer) <= to_size_t listSize) ->
  divisor <> 0 ->
  exists h',
    AEInitAudioBufferList (Ptr bufferList 0) listSize audioFormat (Ptr data ofs)
      dataSize h = Ret tt h' /\
    AEGetNumberOfFramesInAudioBufferList (Ptr bufferList 0) audioFormat NULL h' =
    Ret (to_int (to_UInt32 dataSize / count / divisor)) h'.
Proof.
  intros count divisor Hl Hs Hcount Hroom Hdiv.
  eexists. split.
  { by apply (init_run bufferList l s). }
  apply lookup_lt_Some in Hs as Hlen.
  set (c := if nonInterleaved audioFormat then count
            else to_UInt32 (mChannelsPerFrame audioFormat)).
  rewrite (frames_run bufferList
             {| mNumberBuffers := Some count;
                mBuffers := <[0%nat := init_slot audioFormat data ofs dataSize
                                         count (count - 1)]> (mBuffers l) |}
             (init_slot audioFormat data ofs dataSize count (count - 1))
             (to_UInt32 dataSize / count) c audioFormat NULL);
    [|cbn; apply lookup_insert_eq|cbn; by apply list_lookup_insert_eq|done
     |subst c; cbn; by destruct (nonInterleaved audioFormat)|by left].
  cbn zeta.
  assert (to_UInt32 (to_int c) = to_UInt32 (mChannelsPerFrame audioFormat)) as ->.
  { subst c count. unfold to_int, to_UInt32.
    destruct (nonInterleaved audioFormat).
    - rewrite Zminus_mod_idemp_l. f_equal. lia.
    - rewrite Zminus_mod_idemp_l.
      replace (mChannelsPerFrame audioFormat mod 2 ^ 32 + 2 ^ 31 - 2 ^ 31)
        with (mChannelsPerFrame audioFormat mod 2 ^ 32) by lia.
      apply Z.mod_mod. lia. }
  fold divisor. destruct (Z.eqb_spec divisor 0); [done|]. done.
Qed.

(** [init_frame_count] on two channels of four bytes each. *)
Lemma init_frame_count_witness :
  exists h',
    AEInitAudioBufferList (P := LP64) (Ptr 1 0) 40 (stereo 2) (Ptr 2 0) 8
      (region_heap 8) = Ret tt h' /\
    AEGetNumberOfFramesInAudioBufferList (P := LP64) (Ptr 1 0) (stereo 2) NULL h'
      = Ret 1 h'.
Proof.
  apply (init_frame_count (P := LP64) 1
           {| mNumberBuffers := None;
              mBuffers := [uninit_AudioBuffer; uninit_AudioBuffer] |}
           uninit_AudioBuffer 40 (stereo 2) 2 0 8 (region_heap 8)).
  - reflexivity.
  - reflexivity.
  - vm_compute. split; discriminate.
  - right. vm_compute. discriminate.
  - vm_compute. discriminate.
Defined.

(** ** A null list *)

(** X12.  No function that takes a list tests it for [NULL]: on a null list
    the copy, the release, the initialisation and the frame count are all
    undefined, whatever the other arguments. *)
Theorem null_list_undefined {P : Platform} listSize audioFormat data dataSize
    oNumberOfChannels h :
  AECopyAudioBufferList NULL h = Undefined /\
  AEFreeAudioBufferList NULL h = Undefined /\
  AEInitAudioBufferList NULL listSize audioFormat data dataSize h = Undefined /\
  AEGetNumberOfFramesInAudioBufferList NULL audioFormat oNumberOfChannels h
    = Undefined.
Proof.
  split; [reflexivity|]. split; [reflexivity|]. split; [reflexivity|].
  unfold AEGetNumberOfFramesInAudioBufferList. rewrite run_bind.
  by destruct (nonInterleaved audioFormat).
Qed.
